(** * web3-retro / eth_async: signature parser, token amounts and
      transaction-parameter completion

    A shallow embedding of the pure logic of [eth_async/contracts.py],
    [eth_async/models.py], [eth_async/wallet.py],
    [eth_async/transactions.py] and [eth_async/client.py].

    - Python [str] is [string] (sequences of 8-bit characters; every
      signature the claims mention is ASCII).
    - Python [dict] is stdpp's [gmap string _]; dictionary equality in
      Python ignores insertion order, as [gmap] equality does.
    - Python exceptions are the [Raise] outcomes of a small error monad;
      a [while] loop gets fuel and reports [OutOfFuel] when it has not
      finished.
    - Python [float] is IEEE-754 binary64, through the Standard Library's
      executable specification [SpecFloat] (precision 53, emax 1024).
    - Python [Decimal] is a coefficient and an exponent, with the default
      context of the [decimal] module (28 digits, ROUND_HALF_EVEN).
    - The remote node (web3 RPC) is a record of the answers it gives during
      one call: a read-only snapshot.  Its read queries answer; the calls
      that validate or submit (checksum of an address, signing, sending)
      can raise. *)

From Stdlib Require Import ZArith Lia Ascii String List Bool.
From Stdlib Require Import Floats.SpecFloat.
From Stdlib Require DecimalFacts DecimalPos DecimalN DecimalString.
From Stdlib Require Import Sorting.Sorted.
From stdpp Require Import base option list strings gmap fin_maps.

Local Open Scope string_scope.
Local Open Scope Z_scope.
Local Open Scope list_scope.

(** ** Outcomes of Python code *)

Inductive exn : Type :=
  | IndexError
  | TypeError
  | ValueError
  | OverflowError
  | DecimalException        (* decimal.InvalidOperation / Overflow / DivisionByZero *)
  | TransactionException
  | GasValueObtaining
  | OtherException (name : string).   (* any other exception class, by its name *)

Inductive outcome (A : Type) : Type :=
  | Ret (a : A)
  | Raise (e : exn)
  | OutOfFuel.

Arguments Ret {A} a.
Arguments Raise {A} e.
Arguments OutOfFuel {A}.

#[global] Instance outcome_ret : MRet outcome := fun A a => Ret a.

#[global] Instance outcome_bind : MBind outcome := fun A B k m =>
  match m with
  | Ret a => k a
  | Raise e => Raise e
  | OutOfFuel => OutOfFuel
  end.

(** ** Python string operations used by the sources *)

Module PyStr.

(** [s[:-1]] *)
Fixpoint drop_last (s : string) : string :=
  match s with
  | EmptyString => EmptyString
  | String c EmptyString => EmptyString
  | String c r => String c (drop_last r)
  end.

(** [c in s] for a one-character string [c] *)
Fixpoint contains (c : ascii) (s : string) : bool :=
  match s with
  | EmptyString => false
  | String d r => if Ascii.eqb d c then true else contains c r
  end.

(** [s.split(sep)] for a one-character separator: never the empty list *)
Fixpoint split (sep : ascii) (s : string) : list string :=
  match s with
  | EmptyString => [EmptyString]
  | String c r =>
      if Ascii.eqb c sep then EmptyString :: split sep r
      else match split sep r with
           | h :: t => String c h :: t
           | [] => [String c EmptyString]
           end
  end.

(** [s.split(sep, 1)]: cut at the first separator only *)
Fixpoint split1 (sep : ascii) (s : string) : list string :=
  match s with
  | EmptyString => [EmptyString]
  | String c r =>
      if Ascii.eqb c sep then [EmptyString; r]
      else match split1 sep r with
           | h :: t => String c h :: t
           | [] => [String c EmptyString]
           end
  end.

(** [s.replace(old, new)]: every non-overlapping occurrence, from the
    left.  [skip] counts the characters of a matched occurrence that are
    still to be passed over. *)
Fixpoint replace_from (old new : string) (skip : nat) (s : string) : string :=
  match s with
  | EmptyString => EmptyString
  | String c r =>
      match skip with
      | S k => replace_from old new k r
      | O =>
          if String.prefix old s
          then String.append new (replace_from old new (Nat.pred (String.length old)) r)
          else String c (replace_from old new O r)
      end
  end.

Fixpoint intersperse (new : string) (s : string) : string :=
  match s with
  | EmptyString => new
  | String c r => String.append new (String c (intersperse new r))
  end.

Definition replace (old new : string) (s : string) : string :=
  match old with
  | EmptyString => intersperse new s
  | _ => replace_from old new O s
  end.

End PyStr.

(** ** contracts.py *)

Module Contracts.

(** [{'type': t}] *)
Record Param : Type := { p_type : string }.

(** An entry of [function['inputs']]: [{'type': t}], with the key
    ['components'] added for tuples. *)
Record Input : Type := { type_ : string; components : option (list Param) }.

(** The dictionary built by [_build_function_abi]. *)
Record FunctionAbi : Type := {
  f_type : string;
  name : string;
  inputs : list Input;
  outputs : list Param
}.

Definition _split_signature (text_signature : string) : string * string :=
  let split_result := PyStr.split1 "(" text_signature in
  (nth 0 split_result "",
   if (1 <? Z.of_nat (length split_result)) then nth 1 split_result "" else "").

Definition _get_inputs (sign : string) : list string :=
  match sign with
  | EmptyString => []
  | _ => PyStr.split "," sign
  end.

Fixpoint build_inputs (inputs : list string) (tuples : list (list string))
    (i : nat) (acc : list Input) : outcome (list Input) :=
  match inputs with
  | [] => Ret acc
  | t :: rest =>
      if String.eqb t "tuple" then
        match tuples !! i with
        | Some comps =>
            build_inputs rest tuples (S i)
              (acc ++ [{| type_ := t;
                          components := Some (map (fun c => {| p_type := c |}) comps) |}])
        | None => Raise IndexError
        end
      else
        build_inputs rest tuples i (acc ++ [{| type_ := t; components := None |}])
  end.

Definition _build_function_abi (name : string) (inputs : list string)
    (tuples : list (list string)) : outcome FunctionAbi :=
  ins ← build_inputs inputs tuples O [];
  Ret {| f_type := "function";
         name := name;
         inputs := ins;
         outputs := [{| p_type := "uint256" |}] |}.

Section WithTextBetween.

(** [utils/strings.py] is not part of the sources at hand:
    [text_between text begin end] is a parameter of the parser. *)
Variable text_between : string -> string -> string -> string.

(** The [while '(' in sign] loop, [fuel] iterations at most.
    ([tuple_.split(',') or []] is [tuple_.split(',')]: [split] never
    returns the empty list.) *)
Fixpoint _extract_tuples_loop (fuel : nat) (sign : string)
    (tuples : list (list string)) : outcome (string * list (list string)) :=
  if PyStr.contains "(" sign then
    match fuel with
    | O => OutOfFuel
    | S fuel' =>
        let tuple_ := text_between (PyStr.drop_last sign) "(" ")" in
        let tuples := tuples ++ [PyStr.split "," tuple_] in
        let sign := PyStr.replace (String.append "(" (String.append tuple_ ")")) "tuple" sign in
        _extract_tuples_loop fuel' sign tuples
    end
  else Ret (sign, tuples).

Definition _extract_tuples (fuel : nat) (sign : string)
    : outcome (string * list (list string)) :=
  _extract_tuples_loop fuel sign [].

Definition _parse_signature (fuel : nat) (text_signature : string)
    : outcome (string * list string * list (list string)) :=
  let '(name, sign) := _split_signature text_signature in
  r ← _extract_tuples fuel sign;
  let '(sign, tuples) := r in
  let inputs := _get_inputs sign in
  Ret (name, inputs, tuples).

Definition parse_function_to_abi (fuel : nat) (text_signature : string)
    : outcome FunctionAbi :=
  r ← _parse_signature fuel text_signature;
  let '(name, inputs, tuples) := r in
  _build_function_abi name inputs tuples.

End WithTextBetween.

End Contracts.

(** Modelled from the spec: [text_between] of [utils/strings.py] (absent
    from the sources), which step 2 of the signature parser uses to "find
    the parenthesized group" and "extract its comma-separated member list":
    the text after the first [begin] and before the next [end].  A marker
    that does not occur stands for the start, resp. the end, of the text.
    It only serves to instantiate the parser's parameter. *)
Module Strings.

(** index of the first occurrence of [sub] in [s], if any *)
Fixpoint index_of (sub s : string) : option nat :=
  if String.prefix sub s then Some O
  else match s with
       | EmptyString => None
       | String _ r => S <$> index_of sub r
       end.

Fixpoint skip (n : nat) (s : string) : string :=
  match n, s with
  | S k, String _ r => skip k r
  | _, _ => s
  end.

Fixpoint take (n : nat) (s : string) : string :=
  match n, s with
  | S k, String c r => String c (take k r)
  | _, _ => EmptyString
  end.

Definition text_between (text begin end_ : string) : string :=
  let start :=
    match index_of begin text with
    | Some i => (i + String.length begin)%nat
    | None => O
    end in
  let rest := skip start text in
  match index_of end_ rest with
  | Some j => take j rest
  | None => rest
  end.

End Strings.

(** ** Python floats: IEEE-754 binary64 *)

Module PyFloat.

Definition prec : Z := 53.
Definition emax : Z := 1024.

(** [float(n)] for an [int]: correctly rounded, [OverflowError] when the
    integer is too large. *)
Definition of_int (n : Z) : outcome spec_float :=
  match binary_normalize prec emax n 0 false with
  | S754_infinity _ => Raise OverflowError
  | f => Ret f
  end.

Definition mul : spec_float -> spec_float -> spec_float := SFmul prec emax.
Definition add : spec_float -> spec_float -> spec_float := SFadd prec emax.

(** The literal [1.05]: the binary64 number nearest to 21/20,
    0x1.0cccccccccccdp+0. *)
Definition lit_1_05 : spec_float := S754_finite false 4728779608739021 (-52).

(** [bool(f)]: zeros are falsy, everything else (NaN too) is truthy. *)
Definition truthy (f : spec_float) : bool :=
  match f with
  | S754_zero _ => false
  | _ => true
  end.

End PyFloat.

(** ** Python's [decimal.Decimal] under the default context *)

Module PyDecimal.

Definition prec : Z := 28.
Definition Emax : Z := 999999.
Definition Emin : Z := -999999.
Definition Etiny : Z := Emin - prec + 1.
Definition Etop : Z := Emax - prec + 1.

(** sign, coefficient (never negative) and exponent: the value is
    [(-1)^sign * coef * 10^exp]. *)
Inductive t : Type :=
  | Fin (sign : bool) (coef : Z) (exp : Z)
  | Inf (sign : bool)
  | NaN.

(** [len(self._int)]: the number of decimal digits, 1 for zero *)
Definition ndigits (c : Z) : Z :=
  Z.of_nat (Init.Decimal.nb_digits (N.to_uint (Z.to_N c))).

(** [Decimal(n)] for an [int]: exact *)
Definition of_int (n : Z) : t := Fin (n <? 0) (Z.abs n) 0.

(** lowest terms of [m / 2^k] *)
Fixpoint lowest_terms (k : nat) (m : positive) : positive * nat :=
  match k, m with
  | S k', xO p => lowest_terms k' p
  | _, _ => (m, k)
  end.

(** [Decimal(f)] for a [float] ([Decimal.from_float]): exact *)
Definition of_float (f : spec_float) : t :=
  match f with
  | S754_zero s => Fin s 0 0
  | S754_infinity s => Inf s
  | S754_nan => NaN
  | S754_finite s m e =>
      if 0 <=? e then Fin s (Z.pos m * 2 ^ e) 0
      else
        let '(n, k) := lowest_terms (Z.to_nat (- e)) m in
        Fin s (Z.pos n * 5 ^ Z.of_nat k) (- Z.of_nat k)
  end.

(** [Decimal._fix]: round to the context's precision, ROUND_HALF_EVEN;
    [Overflow] is trapped by the default context. *)
Definition fix_ (d : t) : outcome t :=
  match d with
  | Fin s c e =>
      if c =? 0 then
        let new_exp := Z.min (Z.max e Etiny) Emax in
        Ret (Fin s 0 new_exp)
      else
        let exp_min := ndigits c + e - prec in
        if Etop <? exp_min then Raise DecimalException
        else
          let exp_min := if exp_min <? Etiny then Etiny else exp_min in
          if e <? exp_min then
            let digits := ndigits c + e - exp_min in
            let '(c, e) := if digits <? 0 then (1, exp_min - 1) else (c, e) in
            let unit := 10 ^ (exp_min - e) in
            let q := c / unit in
            let r := c mod unit in
            let up :=
              match 2 * r ?= unit with
              | Gt => true
              | Eq => Z.odd q
              | Lt => false
              end in
            let coeff := if up then q + 1 else q in
            let '(coeff, exp_min) :=
              if up && (prec <? ndigits coeff) then (coeff / 10, exp_min + 1)
              else (coeff, exp_min) in
            if Etop <? exp_min then Raise DecimalException
            else Ret (Fin s coeff exp_min)
          else Ret d
  | _ => Ret d
  end.

(** [Decimal.__mul__] *)
Definition mul (x y : t) : outcome t :=
  match x, y with
  | NaN, _ | _, NaN => Ret NaN
  | Inf sx, Inf sy => Ret (Inf (xorb sx sy))
  | Inf sx, Fin sy c _ | Fin sy c _, Inf sx =>
      if c =? 0 then Raise DecimalException else Ret (Inf (xorb sx sy))
  | Fin sx cx ex, Fin sy cy ey => fix_ (Fin (xorb sx sy) (cx * cy) (ex + ey))
  end.

(** the loop [while exp < ideal_exp and coeff % 10 == 0] of [__truediv__] *)
Fixpoint strip_zeros (n : nat) (coeff exp : Z) : Z * Z :=
  match n with
  | O => (coeff, exp)
  | S n' =>
      if coeff mod 10 =? 0 then strip_zeros n' (coeff / 10) (exp + 1)
      else (coeff, exp)
  end.

(** [Decimal.__truediv__] *)
Definition truediv (x y : t) : outcome t :=
  match x, y with
  | NaN, _ | _, NaN => Ret NaN
  | Inf _, Inf _ => Raise DecimalException
  | Inf sx, Fin sy _ _ => Ret (Inf (xorb sx sy))
  | Fin sx _ _, Inf sy => Ret (Fin (xorb sx sy) 0 Etiny)
  | Fin sx cx ex, Fin sy cy ey =>
      if cy =? 0 then Raise DecimalException
      else if cx =? 0 then fix_ (Fin (xorb sx sy) 0 (ex - ey))
      else
        let shift := ndigits cy - ndigits cx + prec + 1 in
        let exp := ex - ey - shift in
        let '(coeff, remainder) :=
          if 0 <=? shift then Z.div_eucl (cx * 10 ^ shift) cy
          else Z.div_eucl cx (cy * 10 ^ (- shift)) in
        let '(coeff, exp) :=
          if negb (remainder =? 0) then
            (if coeff mod 5 =? 0 then coeff + 1 else coeff, exp)
          else
            strip_zeros (Z.to_nat (ex - ey - exp)) coeff exp in
        fix_ (Fin (xorb sx sy) coeff exp)
  end.

(** [int(d)]: truncation towards zero *)
Definition to_int (d : t) : outcome Z :=
  match d with
  | NaN => Raise ValueError
  | Inf _ => Raise OverflowError
  | Fin s c e =>
      let a := if 0 <=? e then c * 10 ^ e else c / 10 ^ (- e) in
      Ret (if s then - a else a)
  end.

End PyDecimal.

(** ** models.py *)

Module Models.

(** What the sources pass as [amount]: an [int], a [float] or a
    [Decimal].  ([str] amounts, the only ones on which [Decimal(amount)]
    can raise [InvalidOperation], are passed by no caller in these
    sources and are left out.) *)
Inductive number : Type :=
  | NInt (n : Z)
  | NFloat (f : spec_float)
  | NDecimal (d : PyDecimal.t).

Record TokenAmount : Type := {
  _amount : PyDecimal.t;
  decimals : Z;
  wei : bool
}.

Definition _to_decimal (amount : number) : PyDecimal.t :=
  match amount with
  | NInt n => PyDecimal.of_int n
  | NFloat f => PyDecimal.of_float f
  | NDecimal d => d
  end.

(** [TokenAmount(amount, decimals, wei)]; the defaults are [decimals=18],
    [wei=False]. *)
Definition TokenAmount_init (amount : number) (decimals : Z) (wei : bool)
    : TokenAmount :=
  {| _amount := _to_decimal amount; decimals := decimals; wei := wei |}.

(** [10 ** self.decimals] as an operand of a [Decimal]: an [int] for a
    non-negative exponent; for a negative one Python yields a [float],
    which [Decimal] arithmetic rejects with [TypeError]. *)
Definition pow10 (decimals : Z) : outcome PyDecimal.t :=
  if decimals <? 0 then Raise TypeError
  else Ret (PyDecimal.of_int (10 ^ decimals)).

(** The property [Wei]. *)
Definition Wei (self : TokenAmount) : outcome Z :=
  if negb (wei self) then
    p ← pow10 (decimals self);
    d ← PyDecimal.mul (_amount self) p;
    PyDecimal.to_int d
  else PyDecimal.to_int (_amount self).

(** The property [Ether]. *)
Definition Ether (self : TokenAmount) : outcome PyDecimal.t :=
  if wei self then
    p ← pow10 (decimals self);
    PyDecimal.truediv (_amount self) p
  else Ret (_amount self).

(** [CommonValues.InfinityInt]:
    [int('0xffffffffffffffffffffffffffffffffffffffffffffffffffffffffffffffff', 16)] *)
Definition InfinityInt : Z :=
  0xffffffffffffffffffffffffffffffffffffffffffffffffffffffffffffffff.

End Models.

(** ** The client: network description, account and remote node *)

(** Values stored in a transaction-parameter dictionary. *)
Inductive pyval : Type :=
  | VInt (n : Z)
  | VStr (s : string).

#[global] Instance pyval_eq_dec : EqDecision pyval.
Proof. solve_decision. Defined.

(** [TxParams]: a Python [dict] with string keys. *)
Abbreviation TxParams := (gmap string pyval).

(** What a [Client] gives access to.  The [eth_*] fields are the answers
    of the node ([client.w3.eth]) while one operation runs. *)
Record Client : Type := {
  network_chain_id : Z;                      (* client.network.chain_id *)
  network_tx_type : Z;                       (* client.network.tx_type *)
  account_address : string;                  (* client.account.address *)
  to_checksum_address : string -> option string;
                       (* Web3.to_checksum_address; [None] where it raises
                          ValueError: the text is not an address *)
  eth_get_transaction_count : string -> Z;
  eth_gas_price : Z;
  eth_max_priority_fee : Z;
  eth_base_fee_per_gas : Z;                  (* get_block('latest')['baseFeePerGas'] *)
  eth_estimate_gas : TxParams -> Z;
  eth_account_sign_transaction : TxParams -> outcome (list Byte.byte);
                       (* w3.eth.account.sign_transaction(tx_params, account.key)
                            .rawTransaction *)
  eth_send_raw_transaction : list Byte.byte -> outcome (list Byte.byte);
  erc20_decimals : string -> Z               (* contract.functions.decimals().call() *)
}.

(** [Client.get_checksum_address], and every direct call of
    [Web3.to_checksum_address] on a string. *)
Definition get_checksum_address (client : Client) (address : string)
    : outcome string :=
  match to_checksum_address client address with
  | Some a => Ret a
  | None => Raise ValueError
  end.

(** A contract instance ([AsyncContract] / [RawContract]). *)
Record ContractInstance : Type := {
  address : string;
  encodeABI : string -> list pyval -> string
}.

(** [types.Contract]: an address or a contract instance. *)
Inductive ContractRef : Type :=
  | ByAddress (a : string)
  | ByInstance (c : ContractInstance).

(** ** wallet.py *)

Module Wallet.

Definition nonce (client : Client) (address : option string) : Z :=
  let address :=
    match address with
    | Some a => if String.eqb a "" then account_address client else a
    | None => account_address client
    end in
  eth_get_transaction_count client address.

End Wallet.

(** ** transactions.py: class [Tx] *)

Module TxClass.

(** [tx_hash: str | _Hash32]; [None] is the absent [option]. *)
Inductive TxHash : Type :=
  | HashStr (s : string)
  | HashBytes (b : list Byte.byte).

Record Tx : Type := {
  hash : option (list Byte.byte);
  params : option TxParams;
  receipt : option TxParams;
  function_identifier : option string;
  input_data : option string
}.

(** [not tx_hash]: [None], [''] and [b''] are falsy *)
Definition hash_falsy (tx_hash : option TxHash) : bool :=
  match tx_hash with
  | None => true
  | Some (HashStr s) => String.eqb s ""
  | Some (HashBytes b) => match b with [] => true | _ => false end
  end.

(** [not params]: [None] and the empty dictionary are falsy *)
Definition params_falsy (params : option TxParams) : bool :=
  match params with
  | None => true
  | Some d => bool_decide (d = ∅)
  end.

Section WithHexBytes.

(** [HexBytes(s)] of the external [hexbytes] package: the bytes a
    string denotes, [None] where the package rejects the string (it
    then raises a [ValueError]). *)
Variable HexBytes : string -> option (list Byte.byte).

(** [Tx.__init__] *)
Definition Tx_init (tx_hash : option TxHash) (params : option TxParams)
    : outcome Tx :=
  if hash_falsy tx_hash && params_falsy params
  then Raise TransactionException
  else
    h ← match tx_hash with
        | Some (HashStr s) =>
            match HexBytes s with
            | Some b => Ret (Some b)
            | None => Raise ValueError
            end
        | Some (HashBytes b) => Ret (Some b)
        | None => Ret None
        end;
    Ret {| hash := h;
           params := params;
           receipt := None;
           function_identifier := None;
           input_data := None |}.

End WithHexBytes.

End TxClass.

(** ** transactions.py: class [Transaction] *)

Module Transaction.

Import Models.

Section WithClient.

Variable client : Client.

Definition get_gas_price : TokenAmount :=
  TokenAmount_init (NInt (eth_gas_price client)) 18 true.

Definition get_max_priority_fee : TokenAmount :=
  TokenAmount_init (NInt (eth_max_priority_fee client)) 18 true.

Definition get_estimated_gas (tx_params : TxParams) : TokenAmount :=
  TokenAmount_init (NInt (eth_estimate_gas client tx_params)) 18 true.

Definition get_base_gas_fee : TokenAmount :=
  TokenAmount_init (NInt (eth_base_fee_per_gas client)) 18 true.

(** [(max_priority_fee * 2) + (base_fee * 1.05)]: an [int] times a
    [float], then an [int] plus a [float]; each [int] operand is first
    converted to [float].  ([Wei] returns an [int], so the
    [is None] test of the source never fires.) *)
Definition get_max_fee_per_gas : outcome TokenAmount :=
  base_fee ← Wei get_base_gas_fee;
  max_priority_fee ← Wei get_max_priority_fee;
  fb ← PyFloat.of_int base_fee;
  let scaled := PyFloat.mul fb PyFloat.lit_1_05 in
  fp ← PyFloat.of_int (max_priority_fee * 2);
  Ret (TokenAmount_init (NFloat (PyFloat.add fp scaled)) 18 true).

(** [tx_params.get(key, default)] *)
Definition dict_get (tx_params : TxParams) (key : string) (default : pyval) : pyval :=
  match tx_params !! key with
  | Some v => v
  | None => default
  end.

Definition auto_add_params (tx_params : TxParams) : outcome TxParams :=
  let tx_params :=
    <["chainId" := dict_get tx_params "chainId" (VInt (network_chain_id client))]> tx_params in
  let tx_params := <["nonce" := VInt (Wallet.nonce client None)]> tx_params in
  let tx_params := <["from" := VStr (account_address client)]> tx_params in
  tx_params ←
    (if network_tx_type client =? 2 then
       prio ← Wei get_max_priority_fee;
       let tx_params := <["maxPriorityFeePerGas" := VInt prio]> tx_params in
       fee ← get_max_fee_per_gas;
       max_fee ← Wei fee;
       Ret (<["maxFeePerGas" := VInt max_fee]> tx_params)
     else
       price ← Wei get_gas_price;
       Ret (<["gasPrice" := VInt price]> tx_params));
  gas ← Wei (get_estimated_gas tx_params);
  Ret (<["gas" := VInt gas]> tx_params).

(** The keys [auto_add_params] assigns to, in the order of its
    assignments. *)
Definition written_keys : list string :=
  ["chainId"; "nonce"; "from"]
  ++ (if network_tx_type client =? 2
      then ["maxPriorityFeePerGas"; "maxFeePerGas"]
      else ["gasPrice"])
  ++ ["gas"].

(** [Contracts.get_contract_attributes], the address part. *)
Definition get_contract_attributes (contract : ContractRef) : outcome string :=
  match contract with
  | ByInstance c => Ret (address c)
  | ByAddress a => get_checksum_address client a
  end.

(** [get_decimals]: the address of the contract, then the [decimals()]
    call on the default token contract at that address, which
    [get_default_contract_instance] makes after taking the checksum of the
    address once more. *)
Definition get_decimals (contract : ContractRef) : outcome Z :=
  contract_address ← get_contract_attributes contract;
  contract_address ← get_checksum_address client contract_address;
  Ret (erc20_decimals client contract_address).

(** [types.Amount]: [int | float | TokenAmount] *)
Inductive Amount : Type :=
  | AmountInt (n : Z)
  | AmountFloat (f : spec_float)
  | AmountToken (t : TokenAmount).

(** [not amount]: [None], [0] and [0.0] are falsy; a [TokenAmount]
    object (no [__bool__], no [__len__]) is always truthy. *)
Definition amount_falsy (amount : option Amount) : bool :=
  match amount with
  | None => true
  | Some (AmountInt n) => n =? 0
  | Some (AmountFloat f) => negb (PyFloat.truthy f)
  | Some (AmountToken _) => false
  end.

Definition _determine_approve_amount (amount : option Amount)
    (token_contract : ContractRef) : outcome Z :=
  if amount_falsy amount then Ret InfinityInt
  else
    match amount with
    | Some (AmountInt n) =>
        decimals ← get_decimals token_contract;
        Wei (TokenAmount_init (NInt n) decimals false)
    | Some (AmountFloat f) =>
        decimals ← get_decimals token_contract;
        Wei (TokenAmount_init (NFloat f) decimals false)
    | Some (AmountToken t) => Wei t
    | None => Ret InfinityInt
    end.

(** [types.GasLimit]: [int | TokenAmount] *)
Inductive GasLimit : Type :=
  | GasInt (n : Z)
  | GasToken (t : TokenAmount).

Definition gas_limit_falsy (gas_limit : option GasLimit) : bool :=
  match gas_limit with
  | None => true
  | Some (GasInt n) => n =? 0
  | Some (GasToken _) => false
  end.

Definition _build_tx_approve_params (token_contract : ContractInstance)
    (spender_address : string) (amount : Z) (gas_limit : option GasLimit)
    : outcome TxParams :=
  let tx_args := [VStr spender_address; VInt amount] in
  let tx_params : TxParams :=
    <["from" := VStr (account_address client)]>
    (<["data" := VStr (encodeABI token_contract "approve" tx_args)]>
    (<["to" := VStr (address token_contract)]>
    (<["nonce" := VInt (Wallet.nonce client None)]> ∅))) in
  match gas_limit with
  | Some g =>
      if gas_limit_falsy gas_limit then Ret tx_params
      else
        let t := match g with
                 | GasInt n => TokenAmount_init (NInt n) 18 true
                 | GasToken t => t
                 end in
        w ← Wei t;
        Ret (<["gas" := VInt w]> tx_params)
  | None => Ret tx_params
  end.

Section WithHexBytes.

Variable HexBytes : string -> option (list Byte.byte).

Definition sign_and_send_transaction (tx_params : TxParams)
    : outcome TxClass.Tx :=
  tx_params ← auto_add_params tx_params;
  rawTransaction ← eth_account_sign_transaction client tx_params;
  tx_hash ← eth_send_raw_transaction client rawTransaction;
  TxClass.Tx_init HexBytes (Some (TxClass.HashBytes tx_hash)) (Some tx_params).

Definition approve_token_spending (token_contract : ContractInstance)
    (spender_address : string) (amount : option Amount)
    (gas_limit : option GasLimit) : outcome TxClass.Tx :=
  amount ← _determine_approve_amount amount (ByAddress (address token_contract));
  tx_params ← _build_tx_approve_params token_contract spender_address amount gas_limit;
  sign_and_send_transaction tx_params.

End WithHexBytes.

End WithClient.

End Transaction.


(** ** wallet.py: balances *)

(** The balance queries of the node: [w3.eth.get_balance] and the
    [balanceOf] call of a token contract. *)
Record BalanceNode : Type := {
  eth_get_balance : string -> Z;
  erc20_balanceOf : string -> string -> Z     (* token contract, holder *)
}.

Module WalletBalance.

Import Models.

Section WithNode.

Variable client : Client.
Variable node : BalanceNode.




End WithNode.

End WalletBalance.

(** ** client.py: the proxy setting *)

Module ClientProxy.

(** [sub in s] for strings *)
Fixpoint str_in (sub s : string) : bool :=
  if String.prefix sub s then true
  else match s with
       | EmptyString => false
       | String _ r => str_in sub r
       end.

(** [c.isspace()] for an 8-bit character *)
Definition isspace (c : ascii) : bool :=
  let n := nat_of_ascii c in
  ((9 <=? n) && (n <=? 13) || (28 <=? n) && (n <=? 32) || (n =? 133) || (n =? 160))%nat.

(** [s.rstrip()] *)
Fixpoint rstrip (s : string) : string :=
  match s with
  | EmptyString => EmptyString
  | String c r =>
      match rstrip r with
      | EmptyString => if isspace c then EmptyString else String c EmptyString
      | r' => String c r'
      end
  end.

(** What [_configure_proxy] does: return the proxy, raise [InvalidProxy]
    with the address the echo service saw, or fail in the request. *)
Inductive proxy_outcome : Type :=
  | Proxy (proxy : option string)
  | InvalidProxy (your_ip : string)
  | RequestFailed.

Section WithEcho.

(** [requests.get('http://eth0.me/', proxies=..., timeout=10).text] through
    the given proxy; [None] when the request raises. *)
Variable eth0_me : string -> option string.

Definition _configure_proxy (proxy : option string) (check_proxy : bool)
    : proxy_outcome :=
  let proxy :=
    match proxy with
    | Some p =>
        if negb (String.eqb p "") && negb (str_in "http" p)
        then Some (String.append "http://" p)
        else Some p
    | None => None
    end in
  match proxy with
  | Some p =>
      if negb (String.eqb p "") && check_proxy then
        match eth0_me p with
        | Some text =>
            let your_ip := rstrip text in
            if negb (str_in your_ip p) then InvalidProxy your_ip
            else Proxy (Some p)
        | None => RequestFailed
        end
      else Proxy (Some p)
  | None => Proxy None
  end.

End WithEcho.

End ClientProxy.

(** ** contracts.py: the signature database *)

Module SignatureDb.

(** A JSON object of the reply: string keys, string values. *)
Abbreviation json_object := (gmap string string).

(** [sorted(results, key=...)]: a stable sort, ascending in the key. *)
Fixpoint insert_by_key (x : string * json_object) (l : list (string * json_object))
    : list (string * json_object) :=
  match l with
  | [] => [x]
  | y :: r =>
      if String.leb (fst x) (fst y) then x :: y :: r
      else y :: insert_by_key x r
  end.

Definition sorted_by_key (l : list (string * json_object))
    : list (string * json_object) :=
  foldr insert_by_key [] l.

Section WithDatabase.

(** [(await async_get(url))['results']]; [None] when anything raises. *)
Variable async_get_results : string -> option (list json_object).

Definition get_signature (hex_signature : string) : option (list string) :=
  results ←
    async_get_results
      (String.append "https://www.4byte.directory/api/v1/signatures/?hex_signature="
         hex_signature);
  keyed ← mapM (fun result => k ← result !! "created_at"; Some (k, result)) results;
  mapM (fun m => snd m !! "text_signature") (sorted_by_key keyed).

End WithDatabase.

End SignatureDb.

(** ** Sample data used by the concrete evaluations below *)

Module Samples.

(** The binary64 number 1.5, i.e. 3 * 2^-1 with a 53-bit mantissa. *)
Definition float_1_5 : spec_float := S754_finite false 6755399441055744 (-52).

(** Two addresses, in lower case and with their EIP-55 checksum. *)
Definition known_addresses : list (string * string) :=
  [ ("0xdac17f958d2ee523a2206206994597c13d831ec7",
     "0xdAC17F958D2ee523a2206206994597C13D831ec7");
    ("0xd8da6bf26964af9d7eed9e03e53415d37aa96045",
     "0xd8dA6BF26964aF9D7eEd9e03E53415D37aA96045") ].

(** A checksum that knows these two addresses and rejects every other
    text. *)
Definition sample_checksum (a : string) : option string :=
  snd <$> find (fun p => String.eqb a (fst p) || String.eqb a (snd p)) known_addresses.

(** A node whose account has sent three transactions. *)
Definition client_of (tx_type priority_fee base_fee : Z) : Client :=
  {| network_chain_id := 1;
     network_tx_type := tx_type;
     account_address := "0xA11ce";
     to_checksum_address := sample_checksum;
     eth_get_transaction_count := fun _ => 3;
     eth_gas_price := 5;
     eth_max_priority_fee := priority_fee;
     eth_base_fee_per_gas := base_fee;
     eth_estimate_gas := fun _ => 21000;
     eth_account_sign_transaction := fun _ => Ret [];
     eth_send_raw_transaction := fun _ => Ret [];
     erc20_decimals := fun _ => 18 |}.

Definition legacy_client : Client := client_of 0 2 10.
Definition eip1559_client : Client := client_of 2 2 10.

(** The caller fixes the nonce (7) and the gas limit (50000) itself. *)
Definition params_with_nonce : TxParams :=
  <["nonce" := VInt 7]> (<["gas" := VInt 50000]> (<["to" := VStr "0xB0b"]> ∅)).

(** A parameter set with every field of a legacy transaction present. *)
Definition full_legacy_params : TxParams :=
  <["chainId" := VInt 1]>
  (<["nonce" := VInt 7]>
  (<["from" := VStr "0xCafe"]>
  (<["gasPrice" := VInt 9]>
  (<["gas" := VInt 50000]>
  (<["to" := VStr "0xB0b"]> ∅))))).

(** What [auto_add_params] makes of it on [legacy_client]. *)
Definition full_legacy_params_completed : TxParams :=
  <["chainId" := VInt 1]>
  (<["nonce" := VInt 3]>
  (<["from" := VStr "0xA11ce"]>
  (<["gasPrice" := VInt 5]>
  (<["gas" := VInt 21000]>
  (<["to" := VStr "0xB0b"]> ∅))))).

(** A hex decoder standing for [HexBytes]: it accepts the one string the
    examples use. *)
Definition sample_HexBytes (s : string) : option (list Byte.byte) :=
  if String.eqb s "0x01" then Some [Byte.x01] else None.

End Samples.

(** ** More sample data *)

Module MoreSamples.

(** A node whose base fee does not fit a float. *)
Definition overflow_client : Client := Samples.client_of 2 0 (2 ^ 1024).

(** A token contract with a symbolic call encoder. *)
Definition token : ContractInstance :=
  {| address := "0xT0ken";
     encodeABI := fun fn args =>
       match args with
       | [VStr spender; VInt _] => String.append fn (String.append ":" spender)
       | _ => fn
       end |}.

(** The transaction that approving [token] for ["0xB0b"] sends on
    [Samples.legacy_client]. *)
Definition approve_params : TxParams :=
  <["chainId" := VInt 1]>
  (<["nonce" := VInt 3]>
  (<["from" := VStr "0xA11ce"]>
  (<["gasPrice" := VInt 5]>
  (<["gas" := VInt 21000]>
  (<["to" := VStr "0xT0ken"]>
  (<["data" := VStr "approve:0xB0b"]> ∅)))))).

Definition approve_tx : TxClass.Tx :=
  {| TxClass.hash := Some [];
     TxClass.params := Some approve_params;
     TxClass.receipt := None;
     TxClass.function_identifier := None;
     TxClass.input_data := None |}.




Definition balance_node : BalanceNode :=
  {| eth_get_balance := fun _ => 1500000000000000000;
     erc20_balanceOf := fun _ _ => 2500000 |}.

(** An echo service that answers with the address 10.0.0.7 and a newline. *)
Definition echo (proxy : string) : option string :=
  Some (String.append "10.0.0.7" (String (ascii_of_nat 10) "")).

(** An echo service that answers with an empty line. *)
Definition blank_echo (proxy : string) : option string :=
  Some (String (ascii_of_nat 10) "").

(** Two database entries, the newer one first. *)
Definition db_results : list (gmap string string) :=
  [ <["created_at" := "2020-02-02"]> (<["text_signature" := "b(uint256)"]> ∅);
    <["created_at" := "2019-01-01"]> (<["text_signature" := "a(address)"]> ∅) ].

Definition database (url : string) : option (list (gmap string string)) :=
  Some db_results.

End MoreSamples.

(** * Properties *)

(** One step of the error monad. *)
Tactic Notation "run_bind" := cbn [mbind outcome_bind mret outcome_ret].
Tactic Notation "run_bind" "in" hyp(H) := cbn [mbind outcome_bind mret outcome_ret] in H.

(** ** Python string operations on small inputs *)

Example split_two : PyStr.split "," "address,uint256" = ["address"; "uint256"].
Proof. reflexivity. Qed.

Example split_empty : PyStr.split "," "" = [""].
Proof. reflexivity. Qed.

Example split1_first_only : PyStr.split1 "(" "bar((a,b))" = ["bar"; "(a,b))"].
Proof. reflexivity. Qed.

Example split1_absent : PyStr.split1 "(" "foo" = ["foo"].
Proof. reflexivity. Qed.

Example replace_all : PyStr.replace "ab" "X" "cababaab" = "cXXaX".
Proof. reflexivity. Qed.

Example replace_group : PyStr.replace "(a,b)" "tuple" "(a,b),(a,b))" = "tuple,tuple)".
Proof. reflexivity. Qed.

Example drop_last_paren : PyStr.drop_last "(a,b))" = "(a,b)".
Proof. reflexivity. Qed.

Example text_between_group :
  Strings.text_between "(address,uint256)" "(" ")" = "address,uint256".
Proof. reflexivity. Qed.

Lemma split_nonempty (sep : ascii) (s : string) : PyStr.split sep s <> [].
Proof.
  destruct s as [|c s]; cbn; [discriminate|].
  destruct (Ascii.eqb c sep); [discriminate|].
  destruct (PyStr.split sep s); discriminate.
Qed.

(** ** The signature parser *)

Import Contracts.

(** Without any parenthesis the remainder is empty and there is no input:
    the empty-remainder case of [_get_inputs]. *)
Example parse_bare_name (text_between : string -> string -> string -> string) :
  parse_function_to_abi text_between 0 "foo"
  = Ret {| f_type := "function"; name := "foo"; inputs := [];
           outputs := [ {| p_type := "uint256" |} ] |}.
Proof. reflexivity. Qed.

Lemma split1_no_sep (sep : ascii) (s r : string) :
  PyStr.contains sep s = false ->
  PyStr.split1 sep (String.append s (String sep r)) = [s; r].
Proof.
  induction s as [|c s IH]; simpl; intros H.
  - now rewrite Ascii.eqb_refl.
  - destruct (Ascii.eqb c sep); [discriminate|].
    now rewrite (IH H).
Qed.

Lemma extract_tuples_done
    (text_between : string -> string -> string -> string) (fuel : nat)
    (sign : string) (tuples : list (list string)) :
  PyStr.contains "(" sign = false ->
  _extract_tuples_loop text_between fuel sign tuples = Ret (sign, tuples).
Proof. intros H. destruct fuel; simpl; now rewrite H. Qed.

Lemma extract_tuples_step
    (text_between : string -> string -> string -> string) (fuel : nat)
    (sign : string) (tuples : list (list string)) :
  PyStr.contains "(" sign = true ->
  _extract_tuples_loop text_between (S fuel) sign tuples
  = let tuple_ := text_between (PyStr.drop_last sign) "(" ")" in
    _extract_tuples_loop text_between fuel
      (PyStr.replace (String.append "(" (String.append tuple_ ")")) "tuple" sign)
      (tuples ++ [PyStr.split "," tuple_]).
Proof. intros H. simpl. now rewrite H. Qed.

(** C1. On ["approve(address,uint256)"] the parser returns the descriptor of
    a function [approve] whose second input has the type ["uint256)"]: the
    closing parenthesis of the signature is never removed, so the type is
    not ["uint256"]. *)
Theorem parse_approve_keeps_paren
    (text_between : string -> string -> string -> string) (fuel : nat) :
  parse_function_to_abi text_between fuel "approve(address,uint256)"
  = Ret {| f_type := "function";
           name := "approve";
           inputs := [ {| type_ := "address"; components := None |};
                       {| type_ := "uint256)"; components := None |} ];
           outputs := [ {| p_type := "uint256" |} ] |}.
Proof. destruct fuel; reflexivity. Qed.

(** C6. On a zero-argument signature [name()] the parser returns one input,
    of type [")"], instead of the empty list of inputs. *)
Theorem parse_no_args_one_input
    (text_between : string -> string -> string -> string) (fuel : nat)
    (fname : string) :
  PyStr.contains "(" fname = false ->
  parse_function_to_abi text_between fuel (String.append fname "()")
  = Ret {| f_type := "function";
           name := fname;
           inputs := [ {| type_ := ")"; components := None |} ];
           outputs := [ {| p_type := "uint256" |} ] |}.
Proof.
  intros H.
  unfold parse_function_to_abi, _parse_signature, _split_signature.
  change "()" with (String "(" ")").
  rewrite (split1_no_sep "(" fname ")" H).
  destruct fuel; reflexivity.
Qed.

Lemma parse_no_args_one_input_witness :
  parse_function_to_abi Strings.text_between 1 "foo()"
  = Ret {| f_type := "function";
           name := "foo";
           inputs := [ {| type_ := ")"; components := None |} ];
           outputs := [ {| p_type := "uint256" |} ] |}.
Proof. apply (parse_no_args_one_input Strings.text_between 1 "foo"). reflexivity. Defined.

(** C5. On ["bar((address,uint256))"], with a [text_between] that returns
    the text inside the parentheses, the parser returns one input whose type
    is ["tuple)"] and which carries no components: the extracted component
    list is never attached. *)
Theorem parse_tuple_loses_components
    (text_between : string -> string -> string -> string) (fuel : nat) :
  text_between "(address,uint256)" "(" ")" = "address,uint256" ->
  parse_function_to_abi text_between (S fuel) "bar((address,uint256))"
  = Ret {| f_type := "function";
           name := "bar";
           inputs := [ {| type_ := "tuple)"; components := None |} ];
           outputs := [ {| p_type := "uint256" |} ] |}.
Proof.
  intros H.
  assert (Hs : _split_signature "bar((address,uint256))" = ("bar", "(address,uint256))"))
    by reflexivity.
  unfold parse_function_to_abi, _parse_signature, _extract_tuples.
  rewrite Hs.
  rewrite extract_tuples_step by reflexivity.
  change (PyStr.drop_last "(address,uint256))") with "(address,uint256)".
  rewrite H.
  rewrite extract_tuples_done by reflexivity.
  reflexivity.
Qed.

Lemma parse_tuple_loses_components_witness :
  parse_function_to_abi Strings.text_between 1 "bar((address,uint256))"
  = Ret {| f_type := "function";
           name := "bar";
           inputs := [ {| type_ := "tuple)"; components := None |} ];
           outputs := [ {| p_type := "uint256" |} ] |}.
Proof. apply (parse_tuple_loses_components Strings.text_between 0). reflexivity. Defined.

(** ** Token amounts *)

Import Models.

Lemma to_int_of_int (n : Z) : PyDecimal.to_int (PyDecimal.of_int n) = Ret n.
Proof.
  unfold PyDecimal.to_int, PyDecimal.of_int. cbn.
  f_equal. destruct (Z.ltb_spec n 0); lia.
Qed.

(** An amount given in Wei as an [int] reads back unchanged. *)
Lemma Wei_of_wei_int (n decimals : Z) :
  Wei (TokenAmount_init (NInt n) decimals true) = Ret n.
Proof. unfold Wei. cbn. apply to_int_of_int. Qed.

(** The decimal model on values whose Python results are well known:
    [Decimal(1) / Decimal(3)], [Decimal(2) / Decimal(3)] (28 digits, half
    even), [Decimal(1) / Decimal(8)] (exact, trailing zeros stripped) and
    [Decimal(0.1)] (the exact binary expansion). *)
Example decimal_one_third :
  PyDecimal.truediv (PyDecimal.of_int 1) (PyDecimal.of_int 3)
  = Ret (PyDecimal.Fin false 3333333333333333333333333333 (-28)).
Proof. vm_compute. reflexivity. Qed.

Example decimal_two_thirds :
  PyDecimal.truediv (PyDecimal.of_int 2) (PyDecimal.of_int 3)
  = Ret (PyDecimal.Fin false 6666666666666666666666666667 (-28)).
Proof. vm_compute. reflexivity. Qed.

Example decimal_one_eighth :
  PyDecimal.truediv (PyDecimal.of_int 1) (PyDecimal.of_int 8)
  = Ret (PyDecimal.Fin false 125 (-3)).
Proof. vm_compute. reflexivity. Qed.

Example decimal_of_float_tenth :
  PyDecimal.of_float (S754_finite false 7205759403792794 (-56))
  = PyDecimal.Fin false 1000000000000000055511151231257827021181583404541015625 (-55).
Proof. vm_compute. reflexivity. Qed.

(** The float [0.1] with 18 decimals is 100000000000000005 Wei: a float
    amount carries its binary representation error. *)
Example Wei_of_float_tenth :
  Wei (TokenAmount_init (NFloat (S754_finite false 7205759403792794 (-56))) 18 false)
  = Ret 100000000000000005.
Proof. vm_compute. reflexivity. Qed.

(** C8. [TokenAmount(1.5, decimals=18)] (the float 1.5, or the decimal 1.5)
    has the Wei form 1500000000000000000, and
    [TokenAmount(1500000000000000000, decimals=18, wei=True)] has the Ether
    form [Decimal('1.5')]: coefficient 15, exponent -1. *)
Theorem token_amount_round_trip :
  Wei (TokenAmount_init (NFloat Samples.float_1_5) 18 false) = Ret 1500000000000000000
  /\ Wei (TokenAmount_init (NDecimal (PyDecimal.Fin false 15 (-1))) 18 false)
     = Ret 1500000000000000000
  /\ Ether (TokenAmount_init (NInt 1500000000000000000) 18 true)
     = Ret (PyDecimal.Fin false 15 (-1)).
Proof. repeat split; vm_compute; reflexivity. Qed.

(** ** Construction of a [Tx] *)

Import TxClass.

(** Supplying an argument is not enough for the construction to succeed:
    with the string hash ["zz"], which [HexBytes] rejects, and no
    parameters, [Tx] raises [ValueError]. *)
Lemma Tx_init_rejected_string_counterexample :
  ~ (forall (HexBytes : string -> option (list Byte.byte))
            (tx_hash : option TxHash) (params : option TxParams),
       hash_falsy tx_hash && params_falsy params = false ->
       exists tx : Tx, Tx_init HexBytes tx_hash params = Ret tx).
Proof.
  intros H.
  destruct (H Samples.sample_HexBytes (Some (HashStr "zz")) None eq_refl) as [tx Htx].
  assert (E : Tx_init Samples.sample_HexBytes (Some (HashStr "zz")) None
              = Raise ValueError) by reflexivity.
  rewrite E in Htx. discriminate Htx.
Qed.

(** C7 (amended). [Tx(tx_hash, params)] raises [TransactionException]
    exactly when both arguments are falsy.  Otherwise it stores the
    parameters and the hash: bytes as they are, a string as the bytes
    [HexBytes] makes of it; a string that [HexBytes] rejects makes the
    construction raise [ValueError]. *)
Theorem Tx_init_spec (HexBytes : string -> option (list Byte.byte))
    (tx_hash : option TxHash) (params : option TxParams) :
  (Tx_init HexBytes tx_hash params = Raise TransactionException
   <-> hash_falsy tx_hash = true /\ params_falsy params = true)
  /\ (hash_falsy tx_hash && params_falsy params = false ->
      match tx_hash with
      | Some (HashStr s) =>
          match HexBytes s with
          | Some b =>
              Tx_init HexBytes tx_hash params
              = Ret {| hash := Some b; params := params; receipt := None;
                       function_identifier := None; input_data := None |}
          | None => Tx_init HexBytes tx_hash params = Raise ValueError
          end
      | Some (HashBytes b) =>
          Tx_init HexBytes tx_hash params
          = Ret {| hash := Some b; params := params; receipt := None;
                   function_identifier := None; input_data := None |}
      | None =>
          Tx_init HexBytes tx_hash params
          = Ret {| hash := None; params := params; receipt := None;
                   function_identifier := None; input_data := None |}
      end).
Proof.
  unfold Tx_init. split.
  - destruct (hash_falsy tx_hash && params_falsy params) eqn:E.
    + apply andb_true_iff in E. tauto.
    + split.
      * destruct tx_hash as [[s|b]|]; cbn; [destruct (HexBytes s)|..]; discriminate.
      * intros [H1 H2]. rewrite H1, H2 in E. discriminate.
  - intros E. rewrite E.
    destruct tx_hash as [[s|b]|]; cbn; try reflexivity.
    destruct (HexBytes s); reflexivity.
Qed.

Lemma Tx_init_spec_witness :
  Tx_init Samples.sample_HexBytes (Some (HashStr "0x01")) None
  = Ret {| hash := Some [Byte.x01]; params := None; receipt := None;
           function_identifier := None; input_data := None |}.
Proof.
  apply (proj2 (Tx_init_spec Samples.sample_HexBytes (Some (HashStr "0x01")) None)
           eq_refl).
Defined.

(** ** Approvals *)

Import Transaction.

(** A [TokenAmount] object is never falsy: a zero token amount is approved
    as zero. *)
Lemma approve_token_amount_zero (client : Client) (token_contract : ContractRef)
    (decimals : Z) :
  _determine_approve_amount client
    (Some (AmountToken (TokenAmount_init (NInt 0) decimals true))) token_contract
  = Ret 0.
Proof. reflexivity. Qed.

(** ** Completion of transaction parameters *)

(** The dictionary after the assignments to [chainId], [nonce] and [from]. *)
Lemma auto_add_params_inv (client : Client) (tx_params r : TxParams) :
  auto_add_params client tx_params = Ret r ->
  let base :=
    <["from" := VStr (account_address client)]>
    (<["nonce" := VInt (Wallet.nonce client None)]>
    (<["chainId" := dict_get tx_params "chainId" (VInt (network_chain_id client))]>
       tx_params)) in
  exists fees : TxParams,
    r = <["gas" := VInt (eth_estimate_gas client fees)]> fees
    /\ if network_tx_type client =? 2
       then exists fee max_fee,
              get_max_fee_per_gas client = Ret fee /\ Wei fee = Ret max_fee
              /\ fees = <["maxFeePerGas" := VInt max_fee]>
                        (<["maxPriorityFeePerGas" := VInt (eth_max_priority_fee client)]> base)
       else fees = <["gasPrice" := VInt (eth_gas_price client)]> base.
Proof.
  intros H base. unfold auto_add_params in H. fold base in H.
  destruct (network_tx_type client =? 2).
  - unfold get_max_priority_fee in H. rewrite Wei_of_wei_int in H. run_bind in H.
    destruct (get_max_fee_per_gas client) as [fee| |] eqn:Ef; try discriminate.
    run_bind in H.
    destruct (Wei fee) as [max_fee| |] eqn:Ew; try discriminate.
    run_bind in H. unfold get_estimated_gas in H. rewrite Wei_of_wei_int in H.
    run_bind in H.
    injection H as <-. eexists. split; [reflexivity|]. eauto.
  - unfold get_gas_price in H. rewrite Wei_of_wei_int in H. run_bind in H.
    unfold get_estimated_gas in H. rewrite Wei_of_wei_int in H. run_bind in H.
    injection H as <-. eexists. split; reflexivity.
Qed.

(** On a legacy network completion always returns. *)
Lemma auto_add_params_legacy (client : Client) (tx_params : TxParams) :
  (network_tx_type client =? 2) = false ->
  auto_add_params client tx_params
  = let fees :=
      <["gasPrice" := VInt (eth_gas_price client)]>
      (<["from" := VStr (account_address client)]>
      (<["nonce" := VInt (Wallet.nonce client None)]>
      (<["chainId" := dict_get tx_params "chainId" (VInt (network_chain_id client))]>
         tx_params))) in
    Ret (<["gas" := VInt (eth_estimate_gas client fees)]> fees).
Proof.
  intros H. unfold auto_add_params. rewrite H.
  unfold get_gas_price, get_estimated_gas. rewrite Wei_of_wei_int. run_bind.
  rewrite Wei_of_wei_int. reflexivity.
Qed.

(** C10. [auto_add_params] leaves ['to'], ['data'] and ['value'] as the
    caller gave them, and more generally every key outside those it assigns
    to: [chainId], [nonce], [from], [gas] and, by the transaction type of
    the network, either [gasPrice] or [maxPriorityFeePerGas] and
    [maxFeePerGas]. *)
Theorem auto_add_params_frame (client : Client) (tx_params r : TxParams) :
  auto_add_params client tx_params = Ret r ->
  (r !! "to" = tx_params !! "to"
   /\ r !! "data" = tx_params !! "data"
   /\ r !! "value" = tx_params !! "value")
  /\ forall k : string, k ∉ written_keys client -> r !! k = tx_params !! k.
Proof.
  intros H.
  assert (G : forall k : string, k ∉ written_keys client -> r !! k = tx_params !! k).
  { intros k Hk. apply auto_add_params_inv in H. cbv zeta in H.
    destruct H as (fees & -> & Hf). unfold written_keys in Hk.
    destruct (network_tx_type client =? 2).
    - destruct Hf as (fee & max_fee & _ & _ & ->).
      rewrite !lookup_insert_ne; [reflexivity|..];
        intros <-; apply Hk; set_solver.
    - subst fees.
      rewrite !lookup_insert_ne; [reflexivity|..];
        intros <-; apply Hk; set_solver. }
  split; [|exact G].
  unfold written_keys in G.
  repeat split; apply G; destruct (network_tx_type client =? 2);
    intros Hin; repeat (apply elem_of_cons in Hin as [Hin|Hin]; [discriminate|]);
    inversion Hin.
Qed.

Lemma auto_add_params_frame_witness :
  exists r : TxParams,
    auto_add_params Samples.legacy_client Samples.params_with_nonce = Ret r
    /\ r !! "to" = Some (VStr "0xB0b").
Proof.
  eexists. split.
  - apply auto_add_params_legacy. reflexivity.
  - cbv zeta.
    rewrite (proj1 (proj1 (auto_add_params_frame Samples.legacy_client
                             Samples.params_with_nonce _
                             (auto_add_params_legacy Samples.legacy_client
                                Samples.params_with_nonce eq_refl)))).
    reflexivity.
Defined.

(** Whatever the caller supplied, the returned [nonce], [from] and [gas] are
    those of the node and the account. *)
Lemma auto_add_params_overwrites (client : Client) (tx_params r : TxParams) :
  auto_add_params client tx_params = Ret r ->
  r !! "nonce" = Some (VInt (Wallet.nonce client None))
  /\ r !! "from" = Some (VStr (account_address client))
  /\ exists g, r !! "gas" = Some (VInt g).
Proof.
  intros H. apply auto_add_params_inv in H. cbv zeta in H.
  destruct H as (fees & -> & Hf).
  destruct (network_tx_type client =? 2).
  - destruct Hf as (fee & max_fee & _ & _ & ->).
    repeat split; [| |eexists]; now simplify_map_eq.
  - subst fees. repeat split; [| |eexists]; now simplify_map_eq.
Qed.

(** C2. A caller that supplies [nonce = 7] and [gas = 50000] gets back
    [nonce = 3] (the node's transaction count) and [gas = 21000] (the node's
    estimate): the supplied values are replaced, not preserved. *)
Theorem auto_add_params_replaces_nonce :
  Samples.params_with_nonce !! "nonce" = Some (VInt 7)
  /\ Samples.params_with_nonce !! "gas" = Some (VInt 50000)
  /\ exists r : TxParams,
       auto_add_params Samples.legacy_client Samples.params_with_nonce = Ret r
       /\ r !! "nonce" = Some (VInt 3)
       /\ r !! "gas" = Some (VInt 21000).
Proof.
  split; [reflexivity|]. split; [reflexivity|].
  eexists. split.
  - apply auto_add_params_legacy. reflexivity.
  - cbv zeta. split; now simplify_map_eq.
Qed.

(** C3. On a parameter set in which no required field is missing,
    [auto_add_params] returns a different set: nonce, sender, gas price and
    gas limit are those of the node. *)
Theorem auto_add_params_not_idempotent :
  auto_add_params Samples.legacy_client Samples.full_legacy_params
  = Ret Samples.full_legacy_params_completed
  /\ Samples.full_legacy_params_completed <> Samples.full_legacy_params
  /\ (forall k : string,
        k ∈ written_keys Samples.legacy_client ->
        is_Some (Samples.full_legacy_params !! k)).
Proof.
  split; [|split].
  - rewrite auto_add_params_legacy by reflexivity. vm_compute. reflexivity.
  - intros E.
    assert (H : Samples.full_legacy_params_completed !! "nonce"
                = Samples.full_legacy_params !! "nonce") by now rewrite E.
    discriminate H.
  - intros k Hk. unfold written_keys in Hk. cbn in Hk.
    repeat (apply elem_of_cons in Hk as [->|Hk]; [now eexists|]).
    inversion Hk.
Qed.

(** ** Binary64 rounding *)

(** [lit_1_05] is within half a unit in the last place of 21/20, and is a
    normalised binary64 number. *)
Lemma lit_1_05_nearest :
  2 * Z.abs (20 * 4728779608739021 - 21 * 2 ^ 52) <= 20
  /\ valid_binary 53 1024 PyFloat.lit_1_05 = true.
Proof. split; [vm_compute; discriminate|reflexivity]. Qed.

(** [1.5] is [3 / 2], and [Decimal(1.5)] is [Decimal('1.5')]. *)
Lemma float_1_5_value :
  SFdiv 53 1024 (S754_finite false 3 0) (S754_finite false 2 0) = Samples.float_1_5
  /\ PyDecimal.of_float Samples.float_1_5 = PyDecimal.Fin false 15 (-1).
Proof. split; vm_compute; reflexivity. Qed.

Lemma digits2_pos_bounds (p : positive) :
  2 ^ (Z.pos (digits2_pos p) - 1) <= Z.pos p < 2 ^ Z.pos (digits2_pos p).
Proof.
  induction p as [p IH|p IH|]; cbn [digits2_pos].
  - rewrite Pos2Z.inj_succ, (Pos2Z.inj_xI p).
    replace (Z.succ (Z.pos (digits2_pos p)) - 1)
      with (Z.succ (Z.pos (digits2_pos p) - 1)) by lia.
    rewrite !Z.pow_succ_r by lia.
    destruct IH as [IH1 IH2]. revert IH1 IH2.
    generalize (2 ^ (Z.pos (digits2_pos p) - 1)) (2 ^ Z.pos (digits2_pos p)). lia.
  - rewrite Pos2Z.inj_succ, (Pos2Z.inj_xO p).
    replace (Z.succ (Z.pos (digits2_pos p)) - 1)
      with (Z.succ (Z.pos (digits2_pos p) - 1)) by lia.
    rewrite !Z.pow_succ_r by lia.
    destruct IH as [IH1 IH2]. revert IH1 IH2.
    generalize (2 ^ (Z.pos (digits2_pos p) - 1)) (2 ^ Z.pos (digits2_pos p)). lia.
  - cbn. lia.
Qed.

Lemma digits2_pos_unique (p : positive) (d : Z) :
  2 ^ (d - 1) <= Z.pos p < 2 ^ d -> Z.pos (digits2_pos p) = d.
Proof.
  intros [Hlo Hhi]. pose proof (digits2_pos_bounds p) as [Blo Bhi].
  assert (0 < d).
  { destruct (Z.ltb_spec 0 d) as [|Hd]; [assumption|].
    assert (2 ^ d <= 2 ^ 0) by (apply Z.pow_le_mono_r; lia).
    change (2 ^ 0) with 1 in *. lia. }
  destruct (Z.lt_trichotomy (Z.pos (digits2_pos p)) d) as [Hlt|[Heq|Hgt]]; [|assumption|].
  - assert (2 ^ Z.pos (digits2_pos p) <= 2 ^ (d - 1)) by (apply Z.pow_le_mono_r; lia). lia.
  - assert (2 ^ d <= 2 ^ (Z.pos (digits2_pos p) - 1)) by (apply Z.pow_le_mono_r; lia). lia.
Qed.

Lemma iter_xO_pow2 (m d : positive) :
  Z.pos (Pos.iter xO m d) = Z.pos m * 2 ^ Z.pos d.
Proof.
  induction d as [|d IH] using Pos.peano_ind.
  - cbn [Pos.iter]. rewrite (Pos2Z.inj_xO m). change (2 ^ 1) with 2. lia.
  - rewrite Pos.iter_succ, (Pos2Z.inj_xO (Pos.iter xO m d)), IH, Pos2Z.inj_succ, Z.pow_succ_r by lia. lia.
Qed.

Lemma shr_1_m (r : shr_record) :
  0 <= shr_m r -> shr_m (shr_1 r) = shr_m r / 2 /\ 0 <= shr_m (shr_1 r).
Proof.
  destruct r as [m rb sb]. cbn [shr_m]. intros Hm.
  rewrite <- Z.div2_div.
  destruct m as [|[q|q|]|q]; cbn; try lia.
Qed.

Lemma iter_shr_1_m (p : positive) (r : shr_record) :
  0 <= shr_m r ->
  shr_m (SpecFloat.iter_pos shr_1 p r) = shr_m r / 2 ^ Z.pos p /\ 0 <= shr_m (SpecFloat.iter_pos shr_1 p r).
Proof.
  revert r. induction p as [p IH|p IH|]; intros r Hr; cbn [SpecFloat.iter_pos].
  - destruct (shr_1_m r Hr) as [E1 P1].
    destruct (IH _ P1) as [E2 P2].
    destruct (IH _ P2) as [E3 P3].
    split; [|assumption].
    rewrite E3, E2, E1, !Z.div_div by (try apply Z.pow_pos_nonneg; lia).
    f_equal. rewrite (Pos2Z.inj_xI p).
    replace (2 * Z.pos p + 1) with (1 + Z.pos p + Z.pos p) by lia.
    rewrite !Z.pow_add_r by lia. change (2 ^ 1) with 2. lia.
  - destruct (IH _ Hr) as [E2 P2].
    destruct (IH _ P2) as [E3 P3].
    split; [|assumption].
    rewrite E3, E2, !Z.div_div by (try apply Z.pow_pos_nonneg; lia).
    f_equal. rewrite (Pos2Z.inj_xO p).
    replace (2 * Z.pos p) with (Z.pos p + Z.pos p) by lia.
    rewrite !Z.pow_add_r by lia. lia.
  - destruct (shr_1_m r Hr) as [E1 P1]. split; [|assumption].
    rewrite E1. reflexivity.
Qed.

Lemma round_nearest_even_faithful (q : Z) (l : location) :
  q <= round_nearest_even q l <= q + 1.
Proof.
  unfold round_nearest_even.
  destruct l as [|[]]; try destruct (Z.even q); lia.
Qed.

Lemma fexp_normal (x : Z) : -1021 <= x -> fexp 53 1024 x = x - 53.
Proof. intros H. unfold fexp, emin. lia. Qed.

Lemma shr_fexp_noshift (m : positive) (e : Z) :
  Z.pos (digits2_pos m) = 53 -> -1074 <= e ->
  shr_fexp 53 1024 (Z.pos m) e loc_Exact
  = ({| shr_m := Z.pos m; shr_r := false; shr_s := false |}, e).
Proof.
  intros HD He. unfold shr_fexp. cbn [Zdigits2 shr_record_of_loc].
  rewrite HD, fexp_normal by lia.
  replace (53 + e - 53 - e) with 0 by lia. reflexivity.
Qed.

Lemma shr_fexp_shift (m : positive) (e : Z) :
  53 < Z.pos (digits2_pos m) -> -1074 <= Z.pos (digits2_pos m) + e - 53 ->
  exists r : shr_record,
    shr_fexp 53 1024 (Z.pos m) e loc_Exact = (r, Z.pos (digits2_pos m) + e - 53)
    /\ shr_m r = Z.pos m / 2 ^ (Z.pos (digits2_pos m) - 53).
Proof.
  intros HD He. unfold shr_fexp. cbn [Zdigits2 shr_record_of_loc].
  rewrite fexp_normal by lia.
  destruct (Z.pos (digits2_pos m) + e - 53 - e) as [|n|n] eqn:En; try lia.
  unfold shr. eexists. split.
  - f_equal. lia.
  - destruct (iter_shr_1_m n {| shr_m := Z.pos m; shr_r := false; shr_s := false |})
      as [E _]; [cbn; lia|].
    rewrite E. cbn [shr_m]. f_equal. f_equal. lia.
Qed.

(** Rounding a positive integer mantissa of at least 53 bits: the result
    is one of the two neighbouring 53-bit numbers. *)
Lemma binary_round_aux_faithful (m : positive) (e : Z) :
  let D := Z.pos (digits2_pos m) in
  53 <= D -> -1074 <= D + e - 53 -> D + e - 53 < 971 ->
  exists (m' : positive) (e' : Z) (R : Z),
    binary_round_aux 53 1024 false (Z.pos m) e loc_Exact = S754_finite false m' e'
    /\ D + e - 53 <= e' <= D + e - 52
    /\ Z.pos m' * 2 ^ (e' - e) = R * 2 ^ (D - 53)
    /\ Z.pos m / 2 ^ (D - 53) <= R <= Z.pos m / 2 ^ (D - 53) + 1.
Proof.
  intros D HD Hlo Hhi.
  destruct (Z.eq_dec D 53) as [E53|N53].
  - (* already 53 bits: nothing is shifted out *)
    exists m, e, (Z.pos m). unfold binary_round_aux.
    rewrite shr_fexp_noshift by (fold D; lia). cbn [shr_m loc_of_shr_record round_nearest_even].
    rewrite shr_fexp_noshift by (fold D; lia). cbn [shr_m].
    replace (e <=? 1024 - 53) with true by (symmetry; apply Z.leb_le; lia).
    rewrite E53. change (2 ^ (53 - 53)) with 1. rewrite Z.div_1_r, Z.sub_diag.
    change (2 ^ 0) with 1. repeat split; lia.
  - destruct (shr_fexp_shift m e) as (r & Er & Em); [fold D; lia..|]. fold D in Er, Em.
    pose proof (digits2_pos_bounds m) as [Blo Bhi]. fold D in Blo, Bhi.
    set (n := D - 53) in *.
    assert (Hn : 0 < n) by (unfold n; lia).
    assert (Hp : 0 < 2 ^ n) by (apply Z.pow_pos_nonneg; lia).
    assert (Hq : 2 ^ 52 <= Z.pos m / 2 ^ n < 2 ^ 53).
    { replace (D - 1) with (52 + n) in Blo by (unfold n; lia).
      replace D with (53 + n) in Bhi by (unfold n; lia).
      rewrite Z.pow_add_r in Blo, Bhi by lia.
      split.
      - apply Z.div_le_lower_bound; lia.
      - apply Z.div_lt_upper_bound; lia. }
    set (q := Z.pos m / 2 ^ n) in *.
    pose proof (round_nearest_even_faithful q (loc_of_shr_record r)) as HR.
    unfold binary_round_aux. rewrite Er, Em. fold q.
    set (R := round_nearest_even q (loc_of_shr_record r)) in *.
    destruct (Z.eq_dec R (2 ^ 53)) as [Ecarry|Ncarry].
    + (* the mantissa rounds up to 2^53 and is renormalised *)
      rewrite Ecarry.
      exists (4503599627370496%positive), (D + e - 52), R.
      assert (Es : shr_fexp 53 1024 (2 ^ 53) (D + e - 53) loc_Exact
                   = ({| shr_m := 2 ^ 52; shr_r := false; shr_s := false |}, D + e - 52)).
      { unfold shr_fexp. change (Zdigits2 (2 ^ 53)) with 54.
        rewrite fexp_normal by lia.
        replace (54 + (D + e - 53) - 53 - (D + e - 53)) with 1 by lia.
        cbn. f_equal. lia. }
      rewrite Es. cbn [shr_m]. change (2 ^ 52) with (Z.pos 4503599627370496).
      replace (D + e - 52 <=? 1024 - 53) with true by (symmetry; apply Z.leb_le; lia).
      repeat split; try lia.
      rewrite Ecarry. replace (D + e - 52 - e) with (1 + n) by (unfold n; lia).
      rewrite Z.pow_add_r by lia. change (2 ^ 53) with (Z.pos 4503599627370496 * 2 ^ 1). lia.
    + assert (HR' : 2 ^ 52 <= R < 2 ^ 53) by lia.
      destruct R as [|Rp|Rp] eqn:ER; try (exfalso; change (2 ^ 52) with 4503599627370496 in HR'; lia).
      exists Rp, (D + e - 53), (Z.pos Rp).
      rewrite shr_fexp_noshift by (try apply digits2_pos_unique; lia). cbn [shr_m].
      replace (D + e - 53 <=? 1024 - 53) with true by (symmetry; apply Z.leb_le; lia).
      repeat split; try lia.
      f_equal. f_equal. unfold n. lia.
Qed.

Lemma pow2_lt_inv (a b : Z) : 0 <= b -> 2 ^ a < 2 ^ b -> a < b.
Proof.
  intros Hb H. destruct (Z.ltb_spec a b) as [|Hge]; [assumption|].
  assert (2 ^ b <= 2 ^ a) by (apply Z.pow_le_mono_r; lia). lia.
Qed.

(** Rounding model: the relative error is at most [2^-52], and the result
    does not fall below a multiple of [2^105] (an integer) that the exact
    value reaches. *)
Lemma binary_round_aux_model (m : positive) (e : Z) :
  let X := Z.pos m * 2 ^ (e + 105) in
  53 <= Z.pos (digits2_pos m) -> -105 <= e -> X < 2 ^ 157 ->
  exists (m' : positive) (e' : Z),
    binary_round_aux 53 1024 false (Z.pos m) e loc_Exact = S754_finite false m' e'
    /\ e <= e' <= 0
    /\ let V := Z.pos m' * 2 ^ (e' + 105) in
       2 ^ 52 * (V - X) <= X /\ 2 ^ 52 * (X - V) <= X
       /\ forall c : Z, c * 2 ^ 105 <= X -> c * 2 ^ 105 <= V.
Proof.
  intros X HD He HX.
  set (D := Z.pos (digits2_pos m)) in *.
  pose proof (digits2_pos_bounds m) as [Blo Bhi]. fold D in Blo, Bhi.
  assert (Hu : 0 < 2 ^ (e + 105)) by (apply Z.pow_pos_nonneg; lia).
  assert (HDe : D + e <= 52).
  { assert (2 ^ (D - 1 + (e + 105)) < 2 ^ 157).
    { rewrite Z.pow_add_r by lia.
      apply Z.le_lt_trans with X; [|assumption].
      unfold X. apply Z.mul_le_mono_nonneg_r; lia. }
    apply pow2_lt_inv in H; lia. }
  destruct (binary_round_aux_faithful m e) as (m' & e' & R & Eq & He' & EV & HR);
    fold D; try lia.
  fold D in He', EV, HR.
  exists m', e'. split; [exact Eq|]. split; [lia|].
  set (n := D - 53) in *.
  assert (Hn : 0 <= n) by (unfold n; lia).
  assert (Hp : 0 < 2 ^ n) by (apply Z.pow_pos_nonneg; lia).
  set (q := Z.pos m / 2 ^ n) in *.
  assert (Hqm : q * 2 ^ n <= Z.pos m < (q + 1) * 2 ^ n).
  { pose proof (Z.div_mod (Z.pos m) (2 ^ n) ltac:(lia)) as Hdm.
    pose proof (Z.mod_pos_bound (Z.pos m) (2 ^ n) Hp) as Hmb.
    fold q in Hdm. lia. }
  assert (HV : Z.pos m' * 2 ^ (e' + 105) = R * 2 ^ n * 2 ^ (e + 105)).
  { rewrite <- EV. replace (e' + 105) with (e' - e + (e + 105)) by lia.
    rewrite Z.pow_add_r by lia. lia. }
  cbv zeta. rewrite HV. unfold X.
  assert (Hbig : 2 ^ 52 * 2 ^ n <= Z.pos m).
  { rewrite <- Z.pow_add_r by lia. replace (52 + n) with (D - 1) by (unfold n; lia). assumption. }
  assert (Hup : R * 2 ^ n - Z.pos m <= 2 ^ n) by nia.
  assert (Hdn : Z.pos m - R * 2 ^ n <= 2 ^ n) by nia.
  repeat split.
  - replace (2 ^ 52 * (R * 2 ^ n * 2 ^ (e + 105) - Z.pos m * 2 ^ (e + 105)))
      with ((2 ^ 52 * (R * 2 ^ n - Z.pos m)) * 2 ^ (e + 105)) by ring.
    apply Z.mul_le_mono_nonneg_r; [lia|]. nia.
  - replace (2 ^ 52 * (Z.pos m * 2 ^ (e + 105) - R * 2 ^ n * 2 ^ (e + 105)))
      with ((2 ^ 52 * (Z.pos m - R * 2 ^ n)) * 2 ^ (e + 105)) by ring.
    apply Z.mul_le_mono_nonneg_r; [lia|]. nia.
  - intros c Hc.
    (* c * 2^105 = (c * 2^(-e-n)) * 2^n * 2^(e+105) *)
    assert (E105 : 2 ^ 105 = 2 ^ (- e - n) * 2 ^ n * 2 ^ (e + 105)).
    { rewrite <- !Z.pow_add_r by (unfold n; lia). f_equal. lia. }
    rewrite E105 in Hc |- *.
    assert (Hk : 0 < 2 ^ (- e - n)) by (apply Z.pow_pos_nonneg; unfold n; lia).
    set (k := c * 2 ^ (- e - n)).
    assert (Hc' : k * 2 ^ n <= Z.pos m).
    { apply Z.mul_le_mono_pos_r with (2 ^ (e + 105)); [assumption|]. unfold k. lia. }
    assert (Hkq : k <= q).
    { unfold q. apply Z.div_le_lower_bound; lia. }
    replace (c * (2 ^ (- e - n) * 2 ^ n * 2 ^ (e + 105))) with (k * 2 ^ n * 2 ^ (e + 105))
      by (unfold k; ring).
    apply Z.mul_le_mono_nonneg_r; [lia|].
    apply Z.mul_le_mono_nonneg_r; lia.
Qed.

Lemma shl_align_value (mx : positive) (ex ez : Z) :
  ez <= ex -> Z.pos (fst (shl_align mx ex ez)) = Z.pos mx * 2 ^ (ex - ez).
Proof.
  intros H. unfold shl_align.
  destruct (ez - ex) as [|d|d] eqn:E; try lia.
  - replace (ex - ez) with 0 by lia. cbn [fst]. change (2 ^ 0) with 1. lia.
  - cbn [fst]. rewrite iter_xO_pow2. f_equal. f_equal. lia.
Qed.

(** A mantissa of fewer than 53 bits is only normalised: no rounding. *)
Lemma binary_round_exact (m : positive) (e : Z) :
  let D := Z.pos (digits2_pos m) in
  D < 53 -> -1074 <= D + e - 53 -> D + e - 53 <= 971 ->
  exists m' : positive,
    binary_round 53 1024 false m e = S754_finite false m' (D + e - 53)
    /\ Z.pos m' = Z.pos m * 2 ^ (53 - D).
Proof.
  intros D HD Hlo Hhi. unfold binary_round. fold D.
  rewrite fexp_normal by lia.
  pose proof (digits2_pos_bounds m) as [Blo Bhi]. fold D in Blo, Bhi.
  unfold shl_align.
  destruct (D + e - 53 - e) as [|d|d] eqn:E; try lia.
  exists (Pos.iter xO m d).
  assert (Ev : Z.pos (Pos.iter xO m d) = Z.pos m * 2 ^ (53 - D)).
  { rewrite iter_xO_pow2. f_equal. f_equal. lia. }
  split; [|exact Ev].
  assert (Hd : Z.pos (digits2_pos (Pos.iter xO m d)) = 53).
  { apply digits2_pos_unique. rewrite Ev.
    assert (Hs : 0 < 2 ^ (53 - D)) by (apply Z.pow_pos_nonneg; lia).
    split.
    - replace (53 - 1) with (D - 1 + (53 - D)) by lia.
      rewrite Z.pow_add_r by lia. apply Z.mul_le_mono_nonneg_r; lia.
    - replace 53 with (D + (53 - D)) at 2 by lia.
      rewrite Z.pow_add_r by lia. apply Z.mul_lt_mono_pos_r; lia. }
  unfold binary_round_aux.
  rewrite shr_fexp_noshift by lia. cbn [shr_m loc_of_shr_record round_nearest_even].
  rewrite shr_fexp_noshift by lia. cbn [shr_m].
  replace (D + e - 53 <=? 1024 - 53) with true by (symmetry; apply Z.leb_le; lia).
  reflexivity.
Qed.

(** Rounding model for [binary_round], for values in [[1, 2^52)]. *)
Lemma binary_round_model (m : positive) (e : Z) :
  let X := Z.pos m * 2 ^ (e + 105) in
  -105 <= e -> 2 ^ 105 <= X < 2 ^ 157 ->
  exists (m' : positive) (e' : Z),
    binary_round 53 1024 false m e = S754_finite false m' e'
    /\ -105 <= e' <= 0
    /\ let V := Z.pos m' * 2 ^ (e' + 105) in
       2 ^ 52 * (V - X) <= X /\ 2 ^ 52 * (X - V) <= X
       /\ forall c : Z, c * 2 ^ 105 <= X -> c * 2 ^ 105 <= V.
Proof.
  intros X He [HX1 HX2].
  set (D := Z.pos (digits2_pos m)).
  pose proof (digits2_pos_bounds m) as [Blo Bhi]. fold D in Blo, Bhi.
  assert (Hu : 0 < 2 ^ (e + 105)) by (apply Z.pow_pos_nonneg; lia).
  assert (HDlo : 1 <= D + e).
  { assert (2 ^ 105 < 2 ^ (D + (e + 105))).
    { rewrite Z.pow_add_r by lia.
      apply Z.le_lt_trans with X; [assumption|].
      unfold X. apply Z.mul_lt_mono_pos_r; lia. }
    apply pow2_lt_inv in H; lia. }
  assert (HDhi : D + e <= 52).
  { assert (2 ^ (D - 1 + (e + 105)) < 2 ^ 157).
    { rewrite Z.pow_add_r by lia.
      apply Z.le_lt_trans with X; [|assumption].
      unfold X. apply Z.mul_le_mono_nonneg_r; lia. }
    apply pow2_lt_inv in H; lia. }
  destruct (Z.lt_ge_cases D 53) as [Hsmall|Hbig].
  - destruct (binary_round_exact m e) as (m' & Eq & Ev); fold D; try lia.
    fold D in Eq, Ev.
    exists m', (D + e - 53). split; [exact Eq|]. split; [lia|].
    assert (EV : Z.pos m' * 2 ^ (D + e - 53 + 105) = X).
    { rewrite Ev. unfold X. rewrite <- Z.mul_assoc, <- Z.pow_add_r by lia.
      f_equal. f_equal. lia. }
    cbv zeta. rewrite EV. repeat split; try lia.
  - destruct (binary_round_aux_model m e) as (m' & e' & Eq & He' & HV);
      fold D; try lia; try exact HX2.
    exists m', e'. split.
    + unfold binary_round. fold D. rewrite fexp_normal by lia.
      unfold shl_align. destruct (D + e - 53 - e) as [|d|d] eqn:E; try lia; exact Eq.
    + split; [lia|exact HV].
Qed.

(** [float(n)] is exact for [1 <= n < 2^52]. *)
Lemma of_int_exact (n : Z) :
  1 <= n < 2 ^ 52 ->
  exists (m : positive) (e : Z),
    PyFloat.of_int n = Ret (S754_finite false m e)
    /\ -52 <= e <= 0
    /\ Z.pos m * 2 ^ (e + 105) = n * 2 ^ 105.
Proof.
  intros [H1 H2]. destruct n as [|p|p]; try lia.
  set (D := Z.pos (digits2_pos p)).
  pose proof (digits2_pos_bounds p) as [Blo Bhi]. fold D in Blo, Bhi.
  assert (HD : 1 <= D <= 52).
  { split; [unfold D; lia|].
    assert (2 ^ (D - 1) < 2 ^ 52) by lia.
    apply pow2_lt_inv in H; lia. }
  destruct (binary_round_exact p 0) as (m & Eq & Ev); fold D; try lia.
  fold D in Eq, Ev.
  exists m, (D + 0 - 53). split; [|split; [lia|]].
  - unfold PyFloat.of_int, PyFloat.prec, PyFloat.emax. cbn [binary_normalize].
    rewrite Eq. reflexivity.
  - rewrite Ev, <- Z.mul_assoc, <- Z.pow_add_r by lia. f_equal. f_equal. lia.
Qed.

Lemma lowest_terms_spec (K : nat) (m : positive) :
  (snd (PyDecimal.lowest_terms K m) <= K)%nat
  /\ Z.pos m = Z.pos (fst (PyDecimal.lowest_terms K m))
               * 2 ^ Z.of_nat (K - snd (PyDecimal.lowest_terms K m)).
Proof.
  revert m. induction K as [|K IH]; intros m.
  - cbn. split; [lia|]. destruct m; cbn; lia.
  - destruct m as [p|p|]; cbn [PyDecimal.lowest_terms fst snd].
    + rewrite Nat.sub_diag. change (2 ^ Z.of_nat 0) with 1. lia.
    + destruct (IH p) as [H1 H2]. split; [lia|].
      rewrite (Pos2Z.inj_xO p), H2 at 1.
      replace (S K - snd (PyDecimal.lowest_terms K p))%nat
        with (S (K - snd (PyDecimal.lowest_terms K p)))%nat by lia.
      rewrite Nat2Z.inj_succ, Z.pow_succ_r by lia. lia.
    + rewrite Nat.sub_diag. change (2 ^ Z.of_nat 0) with 1. lia.
Qed.

(** [int(Decimal(f))] is the integer part of a positive float [f]. *)
Lemma to_int_of_float_floor (m : positive) (e : Z) :
  -105 <= e <= 0 ->
  PyDecimal.to_int (PyDecimal.of_float (S754_finite false m e))
  = Ret (Z.pos m * 2 ^ (e + 105) / 2 ^ 105).
Proof.
  intros He. unfold PyDecimal.of_float.
  destruct (Z.leb_spec 0 e) as [H0|H0].
  - assert (e = 0) by lia. subst e. cbn [PyDecimal.to_int Z.leb Z.compare].
    change (2 ^ 0) with 1. change (10 ^ 0) with 1. change (0 + 105) with 105.
    rewrite Z.div_mul by lia. f_equal. lia.
  - pose proof (lowest_terms_spec (Z.to_nat (- e)) m) as [Hk Hm].
    destruct (PyDecimal.lowest_terms (Z.to_nat (- e)) m) as [n k].
    cbn [fst snd] in Hk, Hm. cbn [PyDecimal.to_int].
    assert (Hval : Z.pos m * 2 ^ (e + 105) / 2 ^ 105
                   = Z.pos n / 2 ^ Z.of_nat k).
    { rewrite Hm. rewrite <- Z.mul_assoc, <- Z.pow_add_r by lia.
      replace (Z.of_nat (Z.to_nat (- e) - k) + (e + 105)) with (105 - Z.of_nat k) by lia.
      replace 105 with (Z.of_nat k + (105 - Z.of_nat k)) at 2 by lia.
      rewrite (Z.pow_add_r 2 (Z.of_nat k)) by lia.
      apply Z.div_mul_cancel_r.
      - apply Z.pow_nonzero; lia.
      - apply Z.pow_nonzero; lia. }
    rewrite Hval. f_equal.
    destruct (Z.leb_spec 0 (- Z.of_nat k)) as [Hz|Hz].
    + assert (k = O) by lia. subst k. cbn. rewrite Z.div_1_r. lia.
    + rewrite Z.opp_involutive.
      replace (10 ^ Z.of_nat k) with (2 ^ Z.of_nat k * 5 ^ Z.of_nat k)
        by (rewrite <- Z.pow_mul_l; reflexivity).
      apply Z.div_mul_cancel_r; apply Z.pow_nonzero; lia.
Qed.

(** [x * 1.05] for a positive float [x] of value at most [2^52 / 1.05]. *)
Lemma mul_1_05_model (mb : positive) (eb : Z) :
  let X := Z.pos mb * 4728779608739021 * 2 ^ (eb + 53) in
  -53 <= eb -> X < 2 ^ 157 ->
  exists (m' : positive) (e' : Z),
    PyFloat.mul (S754_finite false mb eb) PyFloat.lit_1_05 = S754_finite false m' e'
    /\ -105 <= e' <= 0
    /\ let V := Z.pos m' * 2 ^ (e' + 105) in
       2 ^ 52 * (V - X) <= X /\ 2 ^ 52 * (X - V) <= X
       /\ forall c : Z, c * 2 ^ 105 <= X -> c * 2 ^ 105 <= V.
Proof.
  intros X He HX.
  set (m := (mb * 4728779608739021)%positive).
  assert (Em : Z.pos m = Z.pos mb * 4728779608739021) by reflexivity.
  assert (EX : Z.pos m * 2 ^ (eb - 52 + 105) = X).
  { unfold X. rewrite Em. f_equal. f_equal. lia. }
  assert (HD : 53 <= Z.pos (digits2_pos m)).
  { pose proof (digits2_pos_bounds m) as [_ Bhi].
    assert (H : 2 ^ 52 < 2 ^ Z.pos (digits2_pos m)).
    { apply Z.le_lt_trans with (Z.pos m); [|assumption].
      rewrite Em. change (2 ^ 52) with 4503599627370496. lia. }
    apply pow2_lt_inv in H; lia. }
  destruct (binary_round_aux_model m (eb - 52)) as (m' & e' & Eq & He' & HV);
    try lia; try (rewrite EX; exact HX).
  rewrite EX in HV.
  exists m', e'. split; [|split; [lia|exact HV]].
  unfold PyFloat.mul, PyFloat.lit_1_05, PyFloat.prec, PyFloat.emax, SFmul.
  cbn [xorb]. fold m. replace (eb + -52) with (eb - 52) by lia. exact Eq.
Qed.

(** The sum of two positive floats, for sums in [[1, 2^52)]. *)
Lemma add_model (mx : positive) (ex : Z) (my : positive) (ey : Z) :
  let X := Z.pos mx * 2 ^ (ex + 105) + Z.pos my * 2 ^ (ey + 105) in
  -105 <= ex -> -105 <= ey -> 2 ^ 105 <= X < 2 ^ 157 ->
  exists (m' : positive) (e' : Z),
    PyFloat.add (S754_finite false mx ex) (S754_finite false my ey)
    = S754_finite false m' e'
    /\ -105 <= e' <= 0
    /\ let V := Z.pos m' * 2 ^ (e' + 105) in
       2 ^ 52 * (V - X) <= X /\ 2 ^ 52 * (X - V) <= X
       /\ forall c : Z, c * 2 ^ 105 <= X -> c * 2 ^ 105 <= V.
Proof.
  intros X Hex Hey HX.
  set (ez := Z.min ex ey).
  set (s := (fst (shl_align mx ex ez) + fst (shl_align my ey ez))%positive).
  assert (Es : Z.pos s = Z.pos mx * 2 ^ (ex - ez) + Z.pos my * 2 ^ (ey - ez)).
  { unfold s. rewrite Pos2Z.inj_add, !shl_align_value by (unfold ez; lia). reflexivity. }
  assert (EX : Z.pos s * 2 ^ (ez + 105) = X).
  { rewrite Es, Z.mul_add_distr_r, <- !Z.mul_assoc, <- !Z.pow_add_r by (unfold ez; lia).
    unfold X. f_equal; f_equal; f_equal; lia. }
  destruct (binary_round_model s ez) as (m' & e' & Eq & He' & HV);
    try (unfold ez; lia); try (rewrite EX; exact HX).
  rewrite EX in HV.
  exists m', e'. split; [|split; [lia|exact HV]].
  unfold PyFloat.add, PyFloat.prec, PyFloat.emax, SFadd.
  fold ez. cbn [cond_Zopp Z.add binary_normalize]. fold s. exact Eq.
Qed.

(** Powers of two as numerals, for linear arithmetic. *)
Ltac pow2_numerals :=
  change (2 ^ 45) with 35184372088832 in *;
  change (2 ^ 52) with 4503599627370496 in *;
  change (2 ^ 53) with 9007199254740992 in *;
  change (2 ^ 105) with 40564819207303340847894502572032 in *;
  change (2 ^ 157) with 182687704666362864775460604089535377456991567872 in *.

(** [base_fee * 1.05] for a base fee in [[1, 2^45)]: the exact product is
    [base_fee * 4728779608739021 * 2^-52]. *)
Lemma base_fee_times_1_05 (b : Z) :
  1 <= b < 2 ^ 45 ->
  exists (mb : positive) (eb : Z) (m1 : positive) (e1 : Z),
    PyFloat.of_int b = Ret (S754_finite false mb eb)
    /\ PyFloat.mul (S754_finite false mb eb) PyFloat.lit_1_05 = S754_finite false m1 e1
    /\ -105 <= e1 <= 0
    /\ let X := b * 4728779608739021 * 2 ^ 53 in
       let V := Z.pos m1 * 2 ^ (e1 + 105) in
       2 ^ 52 * (V - X) <= X /\ 2 ^ 52 * (X - V) <= X
       /\ forall c : Z, c * 2 ^ 105 <= X -> c * 2 ^ 105 <= V.
Proof.
  intros Hb.
  destruct (of_int_exact b) as (mb & eb & Eq & Heb & Vb); [pow2_numerals; lia|].
  assert (EX : Z.pos mb * 4728779608739021 * 2 ^ (eb + 53)
               = b * 4728779608739021 * 2 ^ 53).
  { apply Z.mul_cancel_l with (2 ^ 52); [pow2_numerals; lia|].
    transitivity (Z.pos mb * 2 ^ (eb + 105) * 4728779608739021).
    - replace (eb + 105) with (52 + (eb + 53)) by lia.
      rewrite (Z.pow_add_r 2 52 (eb + 53)) by lia. ring.
    - rewrite Vb. change (2 ^ 105) with (2 ^ 52 * 2 ^ 53). ring. }
  destruct (mul_1_05_model mb eb) as (m1 & e1 & E1 & He1 & HV); [lia| |].
  - rewrite EX. pow2_numerals. lia.
  - rewrite EX in HV. exists mb, eb, m1, e1. auto.
Qed.

(** For fees below [2^45] wei the maximum fee per gas is the integer part of
    [2 * priority + 21/20 * base]. *)
Lemma max_fee_per_gas_exact (client : Client) :
  0 <= eth_base_fee_per_gas client < 2 ^ 45 ->
  0 <= eth_max_priority_fee client < 2 ^ 45 ->
  (get_max_fee_per_gas client ≫= Wei)
  = Ret ((40 * eth_max_priority_fee client + 21 * eth_base_fee_per_gas client) / 20).
Proof.
  intros Hb Hp. unfold get_max_fee_per_gas, get_base_gas_fee, get_max_priority_fee.
  rewrite !Wei_of_wei_int. run_bind.
  set (b := eth_base_fee_per_gas client) in *.
  set (p := eth_max_priority_fee client) in *.
  assert (HWei : forall f, Wei (TokenAmount_init (NFloat f) 18 true)
                           = PyDecimal.to_int (PyDecimal.of_float f)) by reflexivity.
  pose proof (Z.div_mod (40 * p + 21 * b) 20 ltac:(lia)) as Hdm.
  pose proof (Z.mod_pos_bound (40 * p + 21 * b) 20 ltac:(lia)) as Hj.
  set (K := (40 * p + 21 * b) / 20) in *.
  set (j := (40 * p + 21 * b) mod 20) in *.
  destruct (Z.eq_dec b 0) as [Eb|Nb]; destruct (Z.eq_dec p 0) as [Ep|Np].
  - (* no fee at all: 0.0 + 0.0 *)
    assert (K = 0) by lia.
    rewrite Eb, Ep. replace K with 0 by lia. reflexivity.
  - (* no base fee: float(2 p) + 0.0 *)
    rewrite Eb. change (PyFloat.of_int 0) with (Ret (S754_zero false)). run_bind.
    destruct (of_int_exact (p * 2)) as (mp & ep & Eq & Hep & Vp); [pow2_numerals; lia|].
    rewrite Eq. run_bind. rewrite HWei.
    change (PyFloat.add (S754_finite false mp ep)
              (PyFloat.mul (S754_zero false) PyFloat.lit_1_05))
      with (S754_finite false mp ep).
    rewrite to_int_of_float_floor by lia. rewrite Vp.
    rewrite Z.div_mul by (apply Z.pow_nonzero; lia).
    f_equal. lia.
  - (* no priority fee: 0.0 + base * 1.05 *)
    rewrite Ep. change (PyFloat.of_int (0 * 2)) with (Ret (S754_zero false)).
    destruct (base_fee_times_1_05 b) as (mb & eb & m1 & e1 & Eq & E1 & He1 & H1a & H1b & H1c);
      [pow2_numerals; lia|].
    rewrite Eq. run_bind. rewrite HWei, E1.
    change (PyFloat.add (S754_zero false) (S754_finite false m1 e1))
      with (S754_finite false m1 e1).
    rewrite to_int_of_float_floor by lia.
    set (V1 := Z.pos m1 * 2 ^ (e1 + 105)) in *.
    f_equal. pow2_numerals.
    assert (Hlo : K * 40564819207303340847894502572032 <= V1).
    { destruct (Z.eq_dec j 0) as [Ej|Nj]; [apply H1c|]; lia. }
    symmetry. apply Z.div_unique with (V1 - K * 40564819207303340847894502572032); lia.
  - (* float(2 p) + base * 1.05 *)
    destruct (base_fee_times_1_05 b) as (mb & eb & m1 & e1 & Eq & E1 & He1 & H1a & H1b & H1c);
      [pow2_numerals; lia|].
    rewrite Eq. run_bind.
    destruct (of_int_exact (p * 2)) as (mp & ep & Eqp & Hep & Vp); [pow2_numerals; lia|].
    rewrite Eqp. run_bind. rewrite HWei, E1.
    set (V1 := Z.pos m1 * 2 ^ (e1 + 105)) in *.
    destruct (add_model mp ep m1 e1) as (m3 & e3 & E3 & He3 & H3a & H3b & H3c);
      [lia|lia| |].
    { fold V1. rewrite Vp. pow2_numerals. lia. }
    rewrite E3, to_int_of_float_floor by lia.
    fold V1 in H3a, H3b, H3c. rewrite Vp in H3a, H3b, H3c.
    set (V3 := Z.pos m3 * 2 ^ (e3 + 105)) in *.
    f_equal. pow2_numerals.
    assert (Hlo : K * 40564819207303340847894502572032 <= V3).
    { destruct (Z.eq_dec j 0) as [Ej|Nj]; [|lia].
      apply H3c.
      assert ((K - p * 2) * 40564819207303340847894502572032 <= V1) by (apply H1c; lia).
      lia. }
    symmetry. apply Z.div_unique with (V3 - K * 40564819207303340847894502572032); lia.
Qed.

(** On an EIP-1559 network completion returns as soon as the maximum fee
    can be computed. *)
Lemma auto_add_params_eip1559 (client : Client) (tx_params : TxParams) (w : Z) :
  (network_tx_type client =? 2) = true ->
  (get_max_fee_per_gas client ≫= Wei) = Ret w ->
  auto_add_params client tx_params
  = let fees :=
      <["maxFeePerGas" := VInt w]>
      (<["maxPriorityFeePerGas" := VInt (eth_max_priority_fee client)]>
      (<["from" := VStr (account_address client)]>
      (<["nonce" := VInt (Wallet.nonce client None)]>
      (<["chainId" := dict_get tx_params "chainId" (VInt (network_chain_id client))]>
         tx_params)))) in
    Ret (<["gas" := VInt (eth_estimate_gas client fees)]> fees).
Proof.
  intros H Hw. unfold auto_add_params. rewrite H.
  unfold get_max_priority_fee at 1. rewrite Wei_of_wei_int. run_bind.
  destruct (get_max_fee_per_gas client) as [fee| |]; try discriminate Hw.
  run_bind in Hw. run_bind. rewrite Hw. run_bind.
  unfold get_estimated_gas. rewrite Wei_of_wei_int. reflexivity.
Qed.

(** The formula with exact arithmetic fails for a base fee of
    600000000000019 wei: the code returns 630000000000020, the integer part
    of 1.05 * 600000000000019 is 630000000000019. *)
Lemma max_fee_formula_counterexample :
  ~ (forall (client : Client) (tx_params r : TxParams),
       network_tx_type client = 2 ->
       auto_add_params client tx_params = Ret r ->
       r !! "maxFeePerGas"
       = Some (VInt ((40 * eth_max_priority_fee client
                      + 21 * eth_base_fee_per_gas client) / 20))).
Proof.
  intros H.
  pose (client := Samples.client_of 2 0 600000000000019).
  assert (Hw : (get_max_fee_per_gas client ≫= Wei) = Ret 630000000000020)
    by (vm_compute; reflexivity).
  pose proof (auto_add_params_eip1559 client ∅ _ eq_refl Hw) as E. cbv zeta in E.
  specialize (H client ∅ _ eq_refl E).
  rewrite lookup_insert_ne, lookup_insert_eq in H by discriminate.
  vm_compute in H. discriminate H.
Qed.

(** C4 (amended). On an EIP-1559 network, with the priority-fee quote and
    the base fee both in [[0, 2^45)] wei, completion returns, sets
    [maxPriorityFeePerGas] to the priority-fee quote and [maxFeePerGas] to
    [2 * maxPriorityFeePerGas + 1.05 * baseFee] truncated to an integer,
    that is [(40 * priority + 21 * base) / 20]. *)
Theorem auto_add_params_eip1559_fees (client : Client) (tx_params : TxParams) :
  network_tx_type client = 2 ->
  0 <= eth_base_fee_per_gas client < 2 ^ 45 ->
  0 <= eth_max_priority_fee client < 2 ^ 45 ->
  exists r : TxParams,
    auto_add_params client tx_params = Ret r
    /\ r !! "maxPriorityFeePerGas" = Some (VInt (eth_max_priority_fee client))
    /\ r !! "maxFeePerGas"
       = Some (VInt ((40 * eth_max_priority_fee client
                      + 21 * eth_base_fee_per_gas client) / 20)).
Proof.
  intros Ht Hb Hp.
  pose proof (max_fee_per_gas_exact client Hb Hp) as Hw.
  assert (Ht' : (network_tx_type client =? 2) = true) by (apply Z.eqb_eq; exact Ht).
  pose proof (auto_add_params_eip1559 client tx_params _ Ht' Hw) as E. cbv zeta in E.
  eexists. split; [exact E|].
  split.
  - rewrite !lookup_insert_ne by discriminate. apply lookup_insert_eq.
  - rewrite lookup_insert_ne by discriminate. apply lookup_insert_eq.
Qed.

Lemma auto_add_params_eip1559_fees_witness :
  exists r : TxParams,
    auto_add_params Samples.eip1559_client ∅ = Ret r
    /\ r !! "maxPriorityFeePerGas" = Some (VInt 2)
    /\ r !! "maxFeePerGas" = Some (VInt 14).
Proof.
  apply (auto_add_params_eip1559_fees Samples.eip1559_client ∅);
    [reflexivity | cbn; lia | cbn; lia].
Defined.

(** * Further properties of the code *)

(** ** contracts.py: the pieces of the parser *)

Lemma split1_spec (sep : ascii) (s : string) :
  if PyStr.contains sep s
  then exists a b : string,
         PyStr.split1 sep s = [a; b]
         /\ PyStr.contains sep a = false
         /\ s = String.append a (String sep b)
  else PyStr.split1 sep s = [s].
Proof.
  induction s as [|c s IH]; cbn; [reflexivity|].
  destruct (Ascii.eqb_spec c sep) as [->|Hne].
  - exists "", s. repeat split.
  - destruct (PyStr.contains sep s).
    + destruct IH as (a & b & -> & Ha & ->).
      exists (String c a), b. cbn.
      destruct (Ascii.eqb_spec c sep); [contradiction|]. repeat split; assumption.
    + now rewrite IH.
Qed.

Lemma split_signature_cases (text_signature : string) :
  PyStr.contains "(" (fst (_split_signature text_signature)) = false
  /\ if PyStr.contains "(" text_signature
     then text_signature
          = String.append (fst (_split_signature text_signature))
              (String "(" (snd (_split_signature text_signature)))
     else _split_signature text_signature = (text_signature, "").
Proof.
  unfold _split_signature.
  pose proof (split1_spec "(" text_signature) as H.
  destruct (PyStr.contains "(" text_signature) eqn:E.
  - destruct H as (a & b & -> & Ha & ->). cbn. split; [assumption|reflexivity].
  - rewrite H. cbn. split; [assumption|reflexivity].
Qed.

(** X1. [_split_signature] cuts at the first ['(']: the name is free of ['('],
    name, ['('] and remainder make up the signature again, and a signature
    without ['('] is all name. *)
Theorem split_signature_spec (text_signature : string) :
  PyStr.contains "(" (fst (_split_signature text_signature)) = false
  /\ if PyStr.contains "(" text_signature
     then text_signature
          = String.append (fst (_split_signature text_signature))
              (String "(" (snd (_split_signature text_signature)))
     else _split_signature text_signature = (text_signature, "").
Proof. apply split_signature_cases. Qed.

Lemma concat_cons2 (sep x y : string) (l : list string) :
  String.concat sep (x :: y :: l)
  = String.append x (String.append sep (String.concat sep (y :: l))).
Proof. reflexivity. Qed.

Lemma split_concat (sep : ascii) (s : string) :
  String.concat (String sep "") (PyStr.split sep s) = s.
Proof.
  induction s as [|c s IH]; cbn [PyStr.split]; [reflexivity|].
  pose proof (split_nonempty sep s) as Hn.
  destruct (Ascii.eqb_spec c sep) as [->|Hne].
  - destruct (PyStr.split sep s) as [|h t]; [contradiction|].
    rewrite concat_cons2, IH. reflexivity.
  - destruct (PyStr.split sep s) as [|h t]; [contradiction|].
    rewrite <- IH. destruct t; reflexivity.
Qed.

Lemma split_pieces_no_sep (sep : ascii) (s : string) :
  Forall (fun t => PyStr.contains sep t = false) (PyStr.split sep s).
Proof.
  induction s as [|c s IH]; cbn; [repeat constructor|].
  destruct (Ascii.eqb_spec c sep) as [->|Hne].
  - constructor; [reflexivity|assumption].
  - destruct (PyStr.split sep s) as [|h t]; [repeat constructor; cbn|].
    + destruct (Ascii.eqb_spec c sep); [contradiction|reflexivity].
    + inversion IH as [|? ? Hh Ht]; subst. constructor; [|assumption].
      cbn. destruct (Ascii.eqb_spec c sep); [contradiction|assumption].
Qed.

(** X2. [_get_inputs]: the inputs joined by commas are the flat signature
    again, no input contains a comma, and the list is empty exactly for the
    empty signature. *)
Theorem get_inputs_round_trip (sign : string) :
  String.concat "," (_get_inputs sign) = sign
  /\ Forall (fun t => PyStr.contains "," t = false) (_get_inputs sign)
  /\ (_get_inputs sign = [] <-> sign = "").
Proof.
  unfold _get_inputs. destruct sign as [|c r].
  - repeat split; constructor.
  - split; [apply split_concat|]. split; [apply split_pieces_no_sep|].
    split; [|discriminate].
    intros H. exfalso. exact (split_nonempty _ _ H).
Qed.

Lemma build_inputs_spec (inputs : list string) (tuples : list (list string))
    (i : nat) (acc : list Input) :
  let n := count_occ string_dec inputs "tuple" in
  (i <= length tuples)%nat ->
  ((i + n <= length tuples)%nat ->
   exists r : list Input,
     build_inputs inputs tuples i acc = Ret (acc ++ r)
     /\ map type_ r = inputs
     /\ omap components r
        = map (map (fun c => {| p_type := c |})) (take n (drop i tuples))
     /\ Forall (fun x => components x = None <-> type_ x <> "tuple") r)
  /\ ((length tuples < i + n)%nat ->
      build_inputs inputs tuples i acc = Raise IndexError).
Proof.
  revert i acc. induction inputs as [|t rest IH]; intros i acc; cbn zeta; intros Hi.
  - cbn. split; [|lia]. intros _. exists []. rewrite app_nil_r.
    repeat split; constructor.
  - cbn [build_inputs count_occ].
    destruct (String.eqb_spec t "tuple") as [->|Hne].
    + destruct (string_dec "tuple" "tuple") as [_|N]; [|contradiction].
      split.
      * intros Hle.
        destruct (lookup_lt_is_Some_2 tuples i ltac:(lia)) as [comps Hc].
        rewrite Hc.
        destruct (IH (S i) (acc ++ [{| type_ := "tuple";
                      components := Some (map (fun c => {| p_type := c |}) comps) |}]))
          as [Hok _]; [lia|].
        destruct (Hok ltac:(lia)) as (r & Er & Hty & Hco & Hall).
        eexists (_ :: r). rewrite Er, <- app_assoc. split; [reflexivity|].
        split; [cbn; now rewrite Hty|].
        split.
        -- cbn. rewrite Hco. erewrite (drop_S tuples comps i) by exact Hc. reflexivity.
        -- constructor; [|assumption]. cbn. split; [discriminate|congruence].
      * intros Hlt. destruct (tuples !! i) as [comps|] eqn:Hc; [|reflexivity].
        apply lookup_lt_Some in Hc. apply IH; lia.
    + destruct (string_dec t "tuple") as [E|_]; [contradiction|].
      destruct (IH i (acc ++ [{| type_ := t; components := None |}]) Hi) as [Hok Hko].
      split.
      * intros Hle. destruct (Hok Hle) as (r & Er & Hty & Hco & Hall).
        eexists (_ :: r). rewrite Er, <- app_assoc. split; [reflexivity|].
        split; [cbn; now rewrite Hty|].
        split; [exact Hco|].
        constructor; [|assumption]. cbn. split; [congruence|reflexivity].
      * exact Hko.
Qed.

Lemma build_function_abi_outcome (name : string) (inputs : list string)
    (tuples : list (list string)) :
  (_build_function_abi name inputs tuples = Raise IndexError
   <-> (length tuples < count_occ string_dec inputs "tuple")%nat)
  /\ ((exists f, _build_function_abi name inputs tuples = Ret f)
      <-> (count_occ string_dec inputs "tuple" <= length tuples)%nat).
Proof.
  unfold _build_function_abi.
  destruct (build_inputs_spec inputs tuples 0 [] ltac:(lia)) as [Hok Hko].
  cbn zeta in Hok, Hko.
  destruct (Nat.le_gt_cases (count_occ string_dec inputs "tuple") (length tuples))
    as [Hle|Hgt].
  - destruct (Hok Hle) as (r & -> & _). run_bind. split; split.
    + discriminate.
    + lia.
    + intros _. exact Hle.
    + intros _. eexists. reflexivity.
  - rewrite (Hko Hgt). run_bind. split; split.
    + intros _. exact Hgt.
    + reflexivity.
    + intros [f Hf]. discriminate.
    + lia.
Qed.

(** X3. [_build_function_abi] raises [IndexError] exactly when the inputs name
    more tuples than there are component lists, and returns otherwise. *)
Theorem build_function_abi_error (name : string) (inputs : list string)
    (tuples : list (list string)) :
  (_build_function_abi name inputs tuples = Raise IndexError
   <-> (length tuples < count_occ string_dec inputs "tuple")%nat)
  /\ ((exists f, _build_function_abi name inputs tuples = Ret f)
      <-> (count_occ string_dec inputs "tuple" <= length tuples)%nat).
Proof. apply build_function_abi_outcome. Qed.

(** X4. The descriptor [_build_function_abi] returns: type ["function"], the
    given name, the fixed output, one input per token with the token as its
    type, components on exactly the inputs of type ["tuple"], and the
    component lists taken from [tuples] in order, from the first. *)
Theorem build_function_abi_shape (fname : string) (tokens : list string)
    (tuples : list (list string)) (f : FunctionAbi) :
  _build_function_abi fname tokens tuples = Ret f ->
  f_type f = "function"
  /\ name f = fname
  /\ outputs f = [ {| p_type := "uint256" |} ]
  /\ map type_ (inputs f) = tokens
  /\ Forall (fun x => components x = None <-> type_ x <> "tuple") (inputs f)
  /\ omap components (inputs f)
     = map (map (fun c => {| p_type := c |}))
         (take (count_occ string_dec tokens "tuple") tuples).
Proof.
  intros H.
  assert (Hle : (count_occ string_dec tokens "tuple" <= length tuples)%nat).
  { apply (build_function_abi_outcome fname tokens tuples). eauto. }
  unfold _build_function_abi in H.
  destruct (build_inputs_spec tokens tuples 0 [] ltac:(lia)) as [Hok _]. cbn zeta in Hok.
  destruct (Hok Hle) as (r & Er & Hty & Hco & Hall).
  rewrite Er in H. run_bind in H. injection H as <-. cbn.
  repeat split; assumption.
Qed.

Lemma build_function_abi_shape_witness :
  omap components
    (inputs {| f_type := "function"; name := "f";
               inputs := [ {| type_ := "tuple";
                              components := Some [ {| p_type := "a" |} ] |};
                           {| type_ := "uint8"; components := None |} ];
               outputs := [ {| p_type := "uint256" |} ] |})
  = map (map (fun c => {| p_type := c |}))
      (take (count_occ string_dec ["tuple"; "uint8"] "tuple") [["a"]; ["b"]]).
Proof.
  apply (build_function_abi_shape "f" ["tuple"; "uint8"] [["a"]; ["b"]]).
  reflexivity.
Defined.

Lemma count_occ_zero_map (tokens : list string) :
  count_occ string_dec tokens "tuple" = O ->
  build_inputs tokens [] 0 []
  = Ret (map (fun t => {| type_ := t; components := None |}) tokens).
Proof.
  intros H.
  enough (G : forall acc, build_inputs tokens [] 0 acc
                          = Ret (acc ++ map (fun t => {| type_ := t; components := None |})
                                          tokens)) by apply (G []).
  induction tokens as [|t rest IH]; intros acc; cbn.
  - now rewrite app_nil_r.
  - cbn in H. destruct (string_dec t "tuple") as [E|N]; [discriminate|].
    destruct (String.eqb_spec t "tuple"); [contradiction|].
    rewrite (IH H), <- app_assoc. reflexivity.
Qed.

Lemma split_signature_at (fname rest : string) :
  PyStr.contains "(" fname = false ->
  _split_signature (String.append fname (String "(" rest)) = (fname, rest).
Proof.
  intros H. unfold _split_signature. now rewrite (split1_no_sep "(" fname rest H).
Qed.

(** X5. A signature whose remainder after the first ['('] has no further ['(']
    is parsed without looking at the tuples: the inputs are the
    comma-separated pieces of the remainder, whatever follows the last
    comma included; a piece that reads ["tuple"] makes the parser raise
    [IndexError]. *)
Theorem parse_flat_signature
    (text_between : string -> string -> string -> string) (fuel : nat)
    (fname rest : string) :
  PyStr.contains "(" fname = false ->
  PyStr.contains "(" rest = false ->
  parse_function_to_abi text_between fuel (String.append fname (String "(" rest))
  = if decide (count_occ string_dec (_get_inputs rest) "tuple" = O)
    then Ret {| f_type := "function";
                name := fname;
                inputs := map (fun t => {| type_ := t; components := None |})
                            (_get_inputs rest);
                outputs := [ {| p_type := "uint256" |} ] |}
    else Raise IndexError.
Proof.
  intros Hn Hr.
  unfold parse_function_to_abi, _parse_signature, _extract_tuples.
  rewrite (split_signature_at fname rest Hn).
  rewrite extract_tuples_done by exact Hr. run_bind.
  case_decide as Hc.
  - unfold _build_function_abi. rewrite count_occ_zero_map by exact Hc. reflexivity.
  - apply build_function_abi_outcome. cbn. lia.
Qed.

Lemma parse_flat_signature_witness :
  parse_function_to_abi Strings.text_between 0 "f(tuple,uint8)" = Raise IndexError.
Proof.
  apply (parse_flat_signature Strings.text_between 0 "f" "tuple,uint8)"); reflexivity.
Defined.

(** X6. A text without any ['('] is taken as the name of a function without
    inputs. *)
Theorem parse_without_parenthesis
    (text_between : string -> string -> string -> string) (fuel : nat)
    (text_signature : string) :
  PyStr.contains "(" text_signature = false ->
  parse_function_to_abi text_between fuel text_signature
  = Ret {| f_type := "function"; name := text_signature; inputs := [];
           outputs := [ {| p_type := "uint256" |} ] |}.
Proof.
  intros H.
  unfold parse_function_to_abi, _parse_signature, _extract_tuples.
  pose proof (split_signature_cases text_signature) as [_ Hs]. rewrite H in Hs.
  rewrite Hs. rewrite extract_tuples_done by reflexivity. reflexivity.
Qed.

Lemma parse_without_parenthesis_witness :
  parse_function_to_abi Strings.text_between 0 "totalSupply"
  = Ret {| f_type := "function"; name := "totalSupply"; inputs := [];
           outputs := [ {| p_type := "uint256" |} ] |}.
Proof. apply (parse_without_parenthesis Strings.text_between 0 "totalSupply"). reflexivity. Defined.

Lemma prefix_contains (c : ascii) (old s : string) :
  String.prefix old s = true -> PyStr.contains c old = true -> PyStr.contains c s = true.
Proof.
  revert s. induction old as [|a old IH]; intros s Hp Hc; [discriminate|].
  destruct s as [|b s]; [discriminate|]. cbn in Hp, Hc |- *.
  destruct (Ascii.ascii_dec a b) as [<-|N]; [|discriminate].
  destruct (Ascii.eqb a c); [reflexivity|]. now apply IH.
Qed.

(** [replace] changes nothing when the pattern has a character that the
    string lacks. *)
Lemma replace_absent_char (c : ascii) (old new s : string) :
  PyStr.contains c old = true -> PyStr.contains c s = false ->
  PyStr.replace old new s = s.
Proof.
  intros Ho Hs. unfold PyStr.replace.
  destruct old as [|a old]; [discriminate|].
  induction s as [|b s IH]; [reflexivity|].
  cbn [PyStr.replace_from].
  destruct (String.prefix (String a old) (String b s)) eqn:Hp.
  - pose proof (prefix_contains c _ _ Hp Ho) as Hc. congruence.
  - f_equal. apply IH. cbn in Hs. destruct (Ascii.eqb b c); [discriminate|assumption].
Qed.

Lemma contains_append_r (c : ascii) (a b : string) :
  PyStr.contains c b = true -> PyStr.contains c (String.append a b) = true.
Proof.
  intros H. induction a as [|x a IH]; [exact H|].
  change (PyStr.contains c (String x (String.append a b)) = true).
  cbn [PyStr.contains]. destruct (Ascii.eqb x c); [reflexivity|exact IH].
Qed.

Lemma extract_tuples_diverges
    (text_between : string -> string -> string -> string) (fuel : nat)
    (sign : string) (tuples : list (list string)) :
  PyStr.contains "(" sign = true -> PyStr.contains ")" sign = false ->
  _extract_tuples_loop text_between fuel sign tuples = OutOfFuel.
Proof.
  intros Ho Hc. revert tuples. induction fuel as [|fuel IH]; intros tuples.
  - cbn. now rewrite Ho.
  - rewrite extract_tuples_step by exact Ho. cbv zeta.
    rewrite (replace_absent_char ")") by
      (try exact Hc; apply (contains_append_r ")" "("), contains_append_r; reflexivity).
    apply IH.
Qed.

(** X7. The loop of [_extract_tuples] never ends on a remainder that has an
    opening parenthesis and no closing one: nothing is replaced, so every
    number of iterations leaves the ['('] in place. *)
Theorem parse_unclosed_parenthesis_diverges
    (text_between : string -> string -> string -> string) (fuel : nat)
    (fname rest : string) :
  PyStr.contains "(" fname = false ->
  PyStr.contains "(" rest = true ->
  PyStr.contains ")" rest = false ->
  parse_function_to_abi text_between fuel (String.append fname (String "(" rest))
  = OutOfFuel.
Proof.
  intros Hn Ho Hc.
  unfold parse_function_to_abi, _parse_signature, _extract_tuples.
  rewrite (split_signature_at fname rest Hn).
  rewrite extract_tuples_diverges by assumption. reflexivity.
Qed.

Lemma parse_unclosed_parenthesis_diverges_witness :
  parse_function_to_abi Strings.text_between 1000 "swap((address,uint256" = OutOfFuel.
Proof.
  apply (parse_unclosed_parenthesis_diverges Strings.text_between 1000
           "swap" "(address,uint256"); reflexivity.
Defined.

(** ** models.py: token amounts in general *)

(** *** The number of decimal digits *)

Lemma usize_nb_digits (d : Init.Decimal.uint) :
  DecimalPos.Unsigned.usize d = N.of_nat (Init.Decimal.nb_digits d).
Proof.
  induction d; cbn [DecimalPos.Unsigned.usize Init.Decimal.nb_digits];
    rewrite ?IHd, ?Nat2N.inj_succ; reflexivity.
Qed.

Lemma usize_revapp (a b : Init.Decimal.uint) :
  DecimalPos.Unsigned.usize (Init.Decimal.revapp a b)
  = (DecimalPos.Unsigned.usize a + DecimalPos.Unsigned.usize b)%N.
Proof.
  revert b. induction a; intros b;
    cbn [Init.Decimal.revapp DecimalPos.Unsigned.usize];
    rewrite ?IHa; cbn [DecimalPos.Unsigned.usize]; lia.
Qed.

Lemma usize_rev (d : Init.Decimal.uint) :
  DecimalPos.Unsigned.usize (Init.Decimal.rev d) = DecimalPos.Unsigned.usize d.
Proof.
  unfold Init.Decimal.rev. rewrite usize_revapp. cbn [DecimalPos.Unsigned.usize]. lia.
Qed.

Lemma of_lu_lt (d : Init.Decimal.uint) :
  (DecimalPos.Unsigned.of_lu d < 10 ^ DecimalPos.Unsigned.usize d)%N.
Proof.
  induction d; cbn [DecimalPos.Unsigned.of_lu DecimalPos.Unsigned.usize];
    rewrite ?N.pow_succ_r'; [cbn|..]; lia.
Qed.

Lemma of_lu_rev_head (d : Init.Decimal.uint) :
  Init.Decimal.nzhead d = d -> d <> Init.Decimal.Nil ->
  (10 ^ (DecimalPos.Unsigned.usize d - 1)
   <= DecimalPos.Unsigned.of_lu (Init.Decimal.rev d)
   < 10 ^ DecimalPos.Unsigned.usize d)%N.
Proof.
  intros Hnz Hnil.
  destruct d as [|d|d|d|d|d|d|d|d|d|d]; try contradiction;
    [exfalso; cbn in Hnz;
     assert (H : (Init.Decimal.nb_digits (Init.Decimal.nzhead d)
                  <= Init.Decimal.nb_digits d)%nat)
       by apply DecimalFacts.nb_digits_nzhead;
     rewrite Hnz in H; cbn in H; lia|..];
    unfold Init.Decimal.rev; cbn [Init.Decimal.revapp];
    rewrite DecimalPos.Unsigned.of_lu_revapp;
    cbn [DecimalPos.Unsigned.of_lu DecimalPos.Unsigned.usize];
    rewrite N.mul_0_r, N.add_0_r;
    replace (N.succ (DecimalPos.Unsigned.usize d) - 1)%N
      with (DecimalPos.Unsigned.usize d) by lia;
    rewrite N.pow_succ_r';
    pose proof (of_lu_lt (Init.Decimal.rev d)) as Hlt;
    rewrite usize_rev in Hlt; lia.
Qed.

Lemma pos_digits_bounds (p : positive) :
  (10 ^ (N.of_nat (Init.Decimal.nb_digits (Pos.to_uint p)) - 1) <= N.pos p
   < 10 ^ N.of_nat (Init.Decimal.nb_digits (Pos.to_uint p)))%N.
Proof.
  set (d := Pos.to_uint p).
  assert (Hu : Init.Decimal.unorm d = d).
  { pose proof (DecimalPos.Unsigned.to_of d) as H.
    unfold d in H at 1. rewrite DecimalPos.Unsigned.of_to in H. cbn in H. now symmetry. }
  assert (Hnil : d <> Init.Decimal.Nil) by apply DecimalPos.Unsigned.to_uint_nonnil.
  assert (Hz : d <> Init.Decimal.zero) by apply DecimalPos.Unsigned.to_uint_nonzero.
  assert (Hnz : Init.Decimal.nzhead d = d).
  { unfold Init.Decimal.unorm in Hu. destruct (Init.Decimal.nzhead d) eqn:E; try exact Hu.
    symmetry in Hu. contradiction. }
  pose proof (of_lu_rev_head d Hnz Hnil) as H.
  rewrite <- DecimalPos.Unsigned.of_uint_alt, usize_nb_digits in H. unfold d in H.
  rewrite DecimalPos.Unsigned.of_to in H. exact H.
Qed.

(** [ndigits c] is the length of the decimal numeral of [c]. *)
Lemma ndigits_bounds (c : Z) :
  0 < c -> 1 <= PyDecimal.ndigits c /\ 10 ^ (PyDecimal.ndigits c - 1) <= c < 10 ^ PyDecimal.ndigits c.
Proof.
  intros Hc. destruct c as [|p|p]; try lia.
  unfold PyDecimal.ndigits. cbn [Z.to_N N.to_uint].
  pose proof (pos_digits_bounds p) as [Hlo Hhi].
  set (k := Init.Decimal.nb_digits (Pos.to_uint p)) in *.
  assert (Hk : (1 <= k)%nat).
  { destruct k; [|lia]. cbn in Hhi. lia. }
  split; [lia|].
  apply N2Z.inj_le in Hlo. apply N2Z.inj_lt in Hhi.
  rewrite N2Z.inj_pow in Hlo, Hhi. rewrite N2Z.inj_sub in Hlo by lia.
  rewrite nat_N_Z in Hlo, Hhi. cbn in Hlo, Hhi. split; assumption.
Qed.

Lemma pow10_lt_inv (a b : Z) : 0 <= b -> 10 ^ a < 10 ^ b -> a < b.
Proof.
  intros Hb H. destruct (Z.ltb_spec a b) as [|Hge]; [assumption|].
  assert (10 ^ b <= 10 ^ a) by (apply Z.pow_le_mono_r; lia). lia.
Qed.

Lemma ndigits_le (c k : Z) : 0 < c < 10 ^ k -> PyDecimal.ndigits c <= k.
Proof.
  intros [H0 Hk]. destruct (ndigits_bounds c H0) as (H1 & Hlo & _).
  assert (0 <= k).
  { destruct (Z.ltb_spec k 0); [|assumption]. rewrite Z.pow_neg_r in Hk; lia. }
  assert (10 ^ (PyDecimal.ndigits c - 1) < 10 ^ k) by lia.
  apply pow10_lt_inv in H2; lia.
Qed.

Lemma ndigits_unique (c k : Z) :
  10 ^ (k - 1) <= c < 10 ^ k -> 1 <= k -> PyDecimal.ndigits c = k.
Proof.
  intros [Hlo Hhi] Hk.
  assert (H0 : 0 < c).
  { assert (0 < 10 ^ (k - 1)) by (apply Z.pow_pos_nonneg; lia). lia. }
  destruct (ndigits_bounds c H0) as (H1 & Blo & Bhi).
  assert (k - 1 < PyDecimal.ndigits c) by (apply pow10_lt_inv; lia).
  assert (PyDecimal.ndigits c - 1 < k) by (apply pow10_lt_inv; lia).
  lia.
Qed.

(** *** Values that need no rounding *)

(** [_fix] leaves a number of at most 28 digits alone. *)
Lemma fix_id (s : bool) (c e : Z) :
  0 <= c < 10 ^ 28 -> PyDecimal.Etiny <= e <= PyDecimal.Etop ->
  PyDecimal.fix_ (PyDecimal.Fin s c e) = Ret (PyDecimal.Fin s c e).
Proof.
  intros Hc He. unfold PyDecimal.fix_.
  unfold PyDecimal.Etiny, PyDecimal.Etop, PyDecimal.Emin, PyDecimal.Emax,
    PyDecimal.prec in *.
  destruct (Z.eqb_spec c 0) as [->|Hnz].
  - do 2 f_equal. lia.
  - pose proof (ndigits_le c 28 ltac:(lia)) as Hd.
    destruct (ndigits_bounds c ltac:(lia)) as (Hd1 & _).
    destruct (Z.ltb_spec (999999 - 28 + 1) (PyDecimal.ndigits c + e - 28)); [lia|].
    destruct (Z.ltb_spec (PyDecimal.ndigits c + e - 28) (-999999 - 28 + 1));
      match goal with
      | |- context [e <? ?b] => destruct (Z.ltb_spec e b); [lia|reflexivity]
      end.
Qed.

Lemma pow10_of_nonneg (d : Z) :
  0 <= d -> pow10 d = Ret (PyDecimal.Fin false (10 ^ d) 0).
Proof.
  intros Hd. unfold pow10, PyDecimal.of_int.
  assert (0 < 10 ^ d) by (apply Z.pow_pos_nonneg; lia).
  destruct (Z.ltb_spec d 0); [lia|].
  destruct (Z.ltb_spec (10 ^ d) 0); [lia|].
  now rewrite Z.abs_eq by lia.
Qed.

(** X8. An amount given in Wei reads back as it is, whatever [decimals] is:
    what the node reports (balances, fees, gas) is never scaled or
    rounded. *)
Theorem Wei_wei_identity (n decimals : Z) :
  Wei (TokenAmount_init (NInt n) decimals true) = Ret n.
Proof. apply Wei_of_wei_int. Qed.

Lemma Wei_human_amount_gen (s : bool) (c e decimals : Z) :
  0 <= decimals -> 0 <= c -> c * 10 ^ decimals < 10 ^ 28 ->
  PyDecimal.Etiny <= e <= PyDecimal.Etop ->
  Wei {| _amount := PyDecimal.Fin s c e; decimals := decimals; wei := false |}
  = Ret (let a := if 0 <=? e then c * 10 ^ decimals * 10 ^ e
                  else c * 10 ^ decimals / 10 ^ (- e) in
         if s then - a else a).
Proof.
  intros Hd Hc Hfit He. unfold Wei. cbn [wei negb Models.decimals _amount].
  rewrite pow10_of_nonneg by exact Hd. run_bind.
  cbn [PyDecimal.mul]. rewrite xorb_false_r, Z.add_0_r.
  assert (0 < 10 ^ decimals) by (apply Z.pow_pos_nonneg; lia).
  rewrite fix_id by (try exact He; nia). run_bind. reflexivity.
Qed.

(** X9. The Wei form of a human amount [(-1)^s * c * 10^e] with [decimals]
    decimals is the amount times [10^decimals], truncated towards zero, as
    long as [c * 10^decimals] has at most 28 digits. *)
Theorem Wei_human_amount (s : bool) (c e decimals : Z) :
  0 <= decimals -> 0 <= c -> c * 10 ^ decimals < 10 ^ 28 ->
  PyDecimal.Etiny <= e <= PyDecimal.Etop ->
  Wei {| _amount := PyDecimal.Fin s c e; decimals := decimals; wei := false |}
  = Ret (let a := if 0 <=? e then c * 10 ^ decimals * 10 ^ e
                  else c * 10 ^ decimals / 10 ^ (- e) in
         if s then - a else a).
Proof. apply Wei_human_amount_gen. Qed.

Lemma Wei_human_amount_witness :
  Wei {| _amount := PyDecimal.Fin false 125 (-2); decimals := 6; wei := false |}
  = Ret 1250000.
Proof.
  apply (Wei_human_amount false 125 (-2) 6); vm_compute; intuition discriminate.
Defined.

Lemma Wei_int_exact (n decimals : Z) :
  0 <= decimals -> Z.abs n * 10 ^ decimals < 10 ^ 28 ->
  Wei (TokenAmount_init (NInt n) decimals false) = Ret (n * 10 ^ decimals).
Proof.
  intros Hd Hfit. unfold TokenAmount_init, _to_decimal, PyDecimal.of_int.
  rewrite Wei_human_amount_gen;
    try assumption; try lia; [|unfold PyDecimal.Etiny, PyDecimal.Etop,
      PyDecimal.Emin, PyDecimal.Emax, PyDecimal.prec; lia].
  cbn zeta. cbn [Z.leb Z.compare]. change (10 ^ 0) with 1. f_equal.
  destruct (Z.ltb_spec n 0); lia.
Qed.

(** X10. For an [int] amount in human units the Wei form is [n * 10^decimals]
    when that has at most 28 digits; with more digits the product is
    rounded to 28 significant digits (as for [10^28 + 1]); a negative
    [decimals] raises [TypeError]. *)
Theorem Wei_int_amount (n decimals : Z) :
  (0 <= decimals -> Z.abs n * 10 ^ decimals < 10 ^ 28 ->
   Wei (TokenAmount_init (NInt n) decimals false) = Ret (n * 10 ^ decimals))
  /\ (decimals < 0 -> Wei (TokenAmount_init (NInt n) decimals false) = Raise TypeError)
  /\ Wei (TokenAmount_init (NInt (10 ^ 28 + 1)) 0 false) = Ret (10 ^ 28).
Proof.
  split; [|split].
  - apply Wei_int_exact.
  - intros Hd. unfold Wei, pow10. cbn [wei negb Models.decimals TokenAmount_init].
    destruct (Z.ltb_spec decimals 0); [reflexivity|lia].
  - vm_compute. reflexivity.
Qed.

Lemma Wei_int_amount_witness :
  Wei (TokenAmount_init (NInt 5) 6 false) = Ret 5000000.
Proof.
  apply (proj1 (Wei_int_amount 5 6)); vm_compute; intuition discriminate.
Defined.

(** *** Division by a power of ten *)

(** The loop that strips trailing zeros keeps the value, stops at the
    ideal exponent, and stops earlier only at a coefficient that does not
    end in 0. *)
Lemma strip_zeros_spec (n : nat) (coeff exp : Z) :
  0 < coeff ->
  let r := PyDecimal.strip_zeros n coeff exp in
  0 < fst r
  /\ exp <= snd r <= exp + Z.of_nat n
  /\ coeff = fst r * 10 ^ (snd r - exp)
  /\ (snd r = exp + Z.of_nat n \/ fst r mod 10 <> 0).
Proof.
  revert coeff exp. induction n as [|n IH]; intros coeff exp Hc; cbn zeta.
  - cbn. rewrite Z.sub_diag. change (10 ^ 0) with 1. repeat split; lia.
  - cbn [PyDecimal.strip_zeros].
    destruct (Z.eqb_spec (coeff mod 10) 0) as [Hz|Hnz].
    + pose proof (Z.div_mod coeff 10 ltac:(lia)) as Hdm. rewrite Hz in Hdm.
      destruct (IH (coeff / 10) (exp + 1) ltac:(lia)) as (H1 & H2 & H3 & H4).
      repeat split; try lia.
      replace (snd (PyDecimal.strip_zeros n (coeff / 10) (exp + 1)) - exp)
          with (1 + (snd (PyDecimal.strip_zeros n (coeff / 10) (exp + 1)) - (exp + 1)))
          by lia.
      rewrite Z.pow_add_r by lia. change (10 ^ 1) with 10. lia.
    + cbn [fst snd]. rewrite Z.sub_diag. change (10 ^ 0) with 1.
      repeat split; try lia; right; exact Hnz.
Qed.

Lemma pow10_divides_cancel (c q j m : Z) :
  0 <= j < m -> c * 10 ^ j = q * 10 ^ m -> c mod 10 = 0.
Proof.
  intros Hj H.
  replace m with (j + 1 + (m - j - 1)) in H by lia.
  rewrite !Z.pow_add_r in H by lia. change (10 ^ 1) with 10 in H.
  assert (Hp : 0 < 10 ^ j) by (apply Z.pow_pos_nonneg; lia).
  assert (E : c = 10 * (q * 10 ^ (m - j - 1))) by nia.
  rewrite E, Z.mul_comm. apply Z.mod_mul. lia.
Qed.

Lemma ndigits_pow10 (d : Z) : 0 <= d -> PyDecimal.ndigits (10 ^ d) = d + 1.
Proof.
  intros Hd. apply ndigits_unique; [|lia].
  replace (d + 1 - 1) with d by lia. split; [lia|].
  apply Z.pow_lt_mono_r; lia.
Qed.

(** Dividing a positive integer of at most 28 digits by [10^d] is exact:
    the quotient [c' * 10^e'] times [10^d] is the integer again. *)
Lemma truediv_pow10 (s : bool) (c d : Z) :
  0 < c < 10 ^ 28 -> 0 <= d <= 1000000 ->
  exists c' e' : Z,
    PyDecimal.truediv (PyDecimal.Fin s c 0) (PyDecimal.Fin false (10 ^ d) 0)
    = Ret (PyDecimal.Fin s c' e')
    /\ 0 < c' <= c /\ - d <= e' <= 0 /\ c = c' * 10 ^ (e' + d)
    /\ (e' = 0 \/ c' mod 10 <> 0).
Proof.
  intros Hc Hd. unfold PyDecimal.truediv.
  assert (Hp : 0 < 10 ^ d) by (apply Z.pow_pos_nonneg; lia).
  destruct (Z.eqb_spec (10 ^ d) 0); [lia|].
  destruct (Z.eqb_spec c 0); [lia|].
  rewrite ndigits_pow10 by lia.
  destruct (ndigits_bounds c ltac:(lia)) as (Hk1 & _).
  pose proof (ndigits_le c 28 ltac:(lia)) as Hk28.
  set (k := PyDecimal.ndigits c) in *.
  unfold PyDecimal.prec.
  set (shift := d + 1 - k + 28 + 1).
  assert (Hshift : d + 2 <= shift) by (unfold shift; lia).
  destruct (Z.leb_spec 0 shift); [|lia].
  assert (Ediv : Z.div_eucl (c * 10 ^ shift) (10 ^ d) = (c * 10 ^ (shift - d), 0)).
  { pose proof (Z.div_eucl_eq (c * 10 ^ shift) (10 ^ d) ltac:(lia)) as Heq.
    pose proof (Z.mod_pos_bound (c * 10 ^ shift) (10 ^ d) Hp) as Hb.
    unfold Z.modulo in Hb.
    destruct (Z.div_eucl (c * 10 ^ shift) (10 ^ d)) as [q r].
    assert (Es : c * 10 ^ shift = 10 ^ d * (c * 10 ^ (shift - d))).
    { replace shift with (d + (shift - d)) at 1 by lia.
      rewrite Z.pow_add_r by lia. ring. }
    assert (q = c * 10 ^ (shift - d) /\ r = 0) as [-> ->]; [|reflexivity].
    assert (10 ^ d * (q - c * 10 ^ (shift - d)) + r = 0) by lia.
    assert (q - c * 10 ^ (shift - d) = 0) by nia.
    lia. }
  rewrite Ediv. cbn [Z.eqb negb].
  replace (0 - 0 - (0 - 0 - shift)) with shift by lia.
  replace (0 - 0 - shift) with (- shift) by lia.
  assert (Hco : 0 < c * 10 ^ (shift - d)).
  { apply Z.mul_pos_pos; [lia|apply Z.pow_pos_nonneg; lia]. }
  pose proof (strip_zeros_spec (Z.to_nat shift) (c * 10 ^ (shift - d)) (- shift) Hco)
    as (H1 & H2 & H3 & H4). cbv zeta in H1, H2, H3, H4.
  destruct (PyDecimal.strip_zeros (Z.to_nat shift) (c * 10 ^ (shift - d)) (- shift))
    as [c' e'].
  cbn [fst snd] in H1, H2, H3, H4. rewrite Z2Nat.id in H2, H4 by lia.
  rewrite xorb_false_r.
  (* at least [shift - d] zeros have been stripped *)
  assert (Hj : shift - d <= e' + shift).
  { destruct H4 as [H4|H4]; [lia|].
    destruct (Z.le_gt_cases (shift - d) (e' + shift)) as [|Hlt]; [assumption|].
    exfalso. apply H4.
    apply (pow10_divides_cancel c' c (e' + shift) (shift - d)); [lia|].
    replace (e' - - shift) with (e' + shift) in H3 by lia. lia. }
  assert (Hval : c = c' * 10 ^ (e' + d)).
  { replace (e' - - shift) with ((e' + d) + (shift - d)) in H3 by lia.
    rewrite Z.pow_add_r in H3 by lia.
    assert (0 < 10 ^ (shift - d)) by (apply Z.pow_pos_nonneg; lia).
    nia. }
  assert (Hle : c' <= c).
  { assert (0 < 10 ^ (e' + d)) by (apply Z.pow_pos_nonneg; lia). nia. }
  exists c', e'.
  rewrite fix_id by
    (unfold PyDecimal.Etiny, PyDecimal.Etop, PyDecimal.Emin, PyDecimal.Emax,
       PyDecimal.prec; lia).
  repeat split; try lia.
  all: destruct H4 as [H4|H4]; [left; lia|right; exact H4].
Qed.

(** X11. The human form of a Wei amount is exact: for an integer of at most 28
    digits, [Ether] is a decimal [c * 10^e] with at most [decimals]
    decimal places whose value times [10^decimals] is the integer. *)
Theorem Ether_exact (n decimals : Z) :
  Z.abs n < 10 ^ 28 -> 0 <= decimals <= 255 ->
  exists c e : Z,
    Ether (TokenAmount_init (NInt n) decimals true) = Ret (PyDecimal.Fin (n <? 0) c e)
    /\ - decimals <= e <= 0
    /\ c * 10 ^ (e + decimals) = Z.abs n.
Proof.
  intros Hn Hd. unfold Ether. cbn [wei TokenAmount_init Models.decimals _amount _to_decimal].
  rewrite pow10_of_nonneg by lia. run_bind. unfold PyDecimal.of_int.
  destruct (Z.eq_dec n 0) as [->|Hnz].
  - exists 0, 0. cbn [Z.abs Z.ltb Z.compare PyDecimal.truediv].
    assert (0 < 10 ^ decimals) by (apply Z.pow_pos_nonneg; lia).
    destruct (Z.eqb_spec (10 ^ decimals) 0); [lia|].
    cbn. repeat split; lia.
  - destruct (truediv_pow10 (n <? 0) (Z.abs n) decimals) as (c & e & E & H1 & H2 & H3 & _);
      [lia|lia|].
    exists c, e. rewrite E. repeat split; lia.
Qed.

Lemma Ether_exact_witness :
  exists c e : Z,
    Ether (TokenAmount_init (NInt 1500000000000000000) 18 true)
    = Ret (PyDecimal.Fin false c e)
    /\ -18 <= e <= 0
    /\ c * 10 ^ (e + 18) = 1500000000000000000.
Proof.
  apply (Ether_exact 1500000000000000000 18); [vm_compute; reflexivity|lia].
Defined.

(** [_fix] on a coefficient that is a number of at most 28 digits followed
    by zeros: only zeros are dropped, the value stays. *)
Lemma fix_trailing_zeros (s : bool) (m z e : Z) :
  0 < m < 10 ^ 28 -> 0 <= z -> PyDecimal.Etiny <= e -> e + z <= PyDecimal.Etop ->
  exists c2 e2 : Z,
    PyDecimal.fix_ (PyDecimal.Fin s (m * 10 ^ z) e) = Ret (PyDecimal.Fin s c2 e2)
    /\ e <= e2 /\ m * 10 ^ z = c2 * 10 ^ (e2 - e).
Proof.
  intros Hm Hz He Hez.
  assert (Hpz : 0 < 10 ^ z) by (apply Z.pow_pos_nonneg; lia).
  set (c := m * 10 ^ z).
  assert (Hc : 0 < c) by (unfold c; nia).
  destruct (ndigits_bounds c Hc) as (Hk1 & Hlo & Hhi).
  assert (Hkz : PyDecimal.ndigits c <= 28 + z).
  { apply ndigits_le. split; [assumption|]. rewrite Z.pow_add_r by lia. unfold c. nia. }
  set (k := PyDecimal.ndigits c) in *.
  destruct (Z.le_gt_cases k 28) as [Hsmall|Hbig].
  - exists c, e. rewrite fix_id.
    + rewrite Z.sub_diag. change (10 ^ 0) with 1. repeat split; lia.
    + split; [lia|]. apply Z.lt_le_trans with (10 ^ k); [assumption|].
      apply Z.pow_le_mono_r; lia.
    + lia.
  - set (n := k - 28).
    assert (Hunit : 0 < 10 ^ n) by (apply Z.pow_pos_nonneg; unfold n; lia).
    assert (Ec : c = (m * 10 ^ (z - n)) * 10 ^ n).
    { unfold c. replace z with ((z - n) + n) at 1 by lia.
      rewrite Z.pow_add_r by (unfold n; lia). ring. }
    exists (m * 10 ^ (z - n)), (k + e - 28).
    split; [|split; [lia|]].
    + unfold PyDecimal.fix_. fold c.
      unfold PyDecimal.Etiny, PyDecimal.Etop, PyDecimal.Emin, PyDecimal.Emax,
        PyDecimal.prec in *. fold k.
      destruct (Z.eqb_spec c 0); [lia|].
      destruct (Z.ltb_spec (999999 - 28 + 1) (k + e - 28)); [lia|].
      destruct (Z.ltb_spec (k + e - 28) (-999999 - 28 + 1)); [lia|].
      destruct (Z.ltb_spec e (k + e - 28)); [|lia].
      replace (k + e - (k + e - 28)) with 28 by lia. cbn [Z.ltb Z.compare].
      replace (k + e - 28 - e) with n by (unfold n; lia).
      assert (Hmod : c mod 10 ^ n = 0) by (rewrite Ec; apply Z.mod_mul; lia).
      assert (Hdiv : c / 10 ^ n = m * 10 ^ (z - n)) by (rewrite Ec; apply Z.div_mul; lia).
      rewrite Hmod, Hdiv, Z.mul_0_r. destruct (Z.compare_spec 0 (10 ^ n)); try lia.
      cbn [andb]. destruct (Z.ltb_spec (999999 - 28 + 1) (k + e - 28)); [lia|].
      reflexivity.
    + fold c. rewrite Ec. f_equal. f_equal. unfold n. lia.
Qed.

(** X12. Round trip: the human form of a Wei amount, given back as a human
    amount with the same [decimals], has the Wei form from which it came. *)
Theorem Wei_Ether_round_trip (n decimals : Z) :
  Z.abs n < 10 ^ 28 -> 0 <= decimals <= 255 ->
  (a ← Ether (TokenAmount_init (NInt n) decimals true);
   Wei (TokenAmount_init (NDecimal a) decimals false))
  = Ret n.
Proof.
  intros Hn Hd.
  assert (Hp : 0 < 10 ^ decimals) by (apply Z.pow_pos_nonneg; lia).
  destruct (Z.eq_dec n 0) as [->|Hnz].
  - unfold Ether, Wei. cbn [wei TokenAmount_init Models.decimals _amount _to_decimal negb].
    rewrite pow10_of_nonneg by lia. run_bind.
    change (PyDecimal.of_int 0) with (PyDecimal.Fin false 0 0).
    unfold PyDecimal.truediv.
    destruct (Z.eqb_spec (10 ^ decimals) 0); [lia|].
    change (0 =? 0) with true. cbv iota. change (0 - 0) with 0. cbn [xorb].
    rewrite fix_id by (vm_compute; intuition discriminate).
    run_bind. unfold PyDecimal.mul. rewrite Z.mul_0_l. cbn [xorb Z.add].
    rewrite fix_id by (vm_compute; intuition discriminate). reflexivity.
  - destruct (truediv_pow10 (n <? 0) (Z.abs n) decimals)
      as (c & e & E & H1 & H2 & H3 & _); [lia|lia|].
    unfold Ether, Wei. cbn [wei TokenAmount_init Models.decimals _amount _to_decimal negb].
    rewrite pow10_of_nonneg by lia. run_bind. unfold PyDecimal.of_int at 1.
    rewrite E. run_bind. cbn [PyDecimal.mul]. rewrite xorb_false_r, Z.add_0_r.
    destruct (fix_trailing_zeros (n <? 0) c decimals e) as (c2 & e2 & E2 & He2 & Hv);
      try (unfold PyDecimal.Etiny, PyDecimal.Etop, PyDecimal.Emin, PyDecimal.Emax,
             PyDecimal.prec; lia).
    rewrite E2. run_bind. unfold PyDecimal.to_int. f_equal.
    assert (Hval : (if 0 <=? e2 then c2 * 10 ^ e2 else c2 / 10 ^ (- e2)) = Z.abs n).
    { assert (Hpe : 0 < 10 ^ (- e)) by (apply Z.pow_pos_nonneg; lia).
      assert (Eq1 : c * 10 ^ decimals = Z.abs n * 10 ^ (- e)).
      { rewrite H3. rewrite <- Z.mul_assoc, <- Z.pow_add_r by lia.
        f_equal. f_equal. lia. }
      destruct (Z.leb_spec 0 e2) as [Hpos|Hneg].
      - assert (Eq2 : 10 ^ (e2 - e) = 10 ^ e2 * 10 ^ (- e)).
        { rewrite <- Z.pow_add_r by lia. f_equal; lia. }
        rewrite Eq2 in Hv. nia.
      - assert (Eq2 : 10 ^ (- e) = 10 ^ (e2 - e) * 10 ^ (- e2)).
        { rewrite <- Z.pow_add_r by lia. f_equal; lia. }
        assert (Hpe2 : 0 < 10 ^ (e2 - e)) by (apply Z.pow_pos_nonneg; lia).
        assert (Ec2 : c2 = Z.abs n * 10 ^ (- e2)).
        { rewrite Eq2 in Eq1. nia. }
        rewrite Ec2. apply Z.div_mul. apply Z.pow_nonzero; lia. }
    rewrite Hval. destruct (Z.ltb_spec n 0); lia.
Qed.

Lemma Wei_Ether_round_trip_witness :
  (a ← Ether (TokenAmount_init (NInt 1234567) 6 true);
   Wei (TokenAmount_init (NDecimal a) 6 false))
  = Ret 1234567.
Proof.
  apply (Wei_Ether_round_trip 1234567 6); [vm_compute; reflexivity|lia].
Defined.

(** ** transactions.py: completion, sending and approving *)

Lemma auto_add_params_chain_id (client : Client) (tx_params r : TxParams) :
  auto_add_params client tx_params = Ret r ->
  r !! "chainId" = Some (dict_get tx_params "chainId" (VInt (network_chain_id client))).
Proof.
  intros H. apply auto_add_params_inv in H. cbv zeta in H.
  destruct H as (fees & -> & Hf).
  destruct (network_tx_type client =? 2).
  - destruct Hf as (fee & max_fee & _ & _ & ->). now simplify_map_eq.
  - subst fees. now simplify_map_eq.
Qed.

Lemma auto_add_params_fee_keys (client : Client) (tx_params r : TxParams) :
  auto_add_params client tx_params = Ret r ->
  if network_tx_type client =? 2
  then r !! "maxPriorityFeePerGas" = Some (VInt (eth_max_priority_fee client))
       /\ is_Some (r !! "maxFeePerGas")
  else r !! "gasPrice" = Some (VInt (eth_gas_price client)).
Proof.
  intros H. apply auto_add_params_inv in H. cbv zeta in H.
  destruct H as (fees & -> & Hf).
  destruct (network_tx_type client =? 2).
  - destruct Hf as (fee & max_fee & _ & _ & ->). split; [|eexists]; now simplify_map_eq.
  - subst fees. now simplify_map_eq.
Qed.

(** X13. When completion returns, every key it assigns is present: the chain id
    is the caller's when supplied and the network's otherwise, nonce and
    sender are those of the account, the fee keys are those of the
    network's transaction type. *)
Theorem auto_add_params_complete (client : Client) (tx_params r : TxParams) :
  auto_add_params client tx_params = Ret r ->
  Forall (fun k => is_Some (r !! k)) (written_keys client)
  /\ r !! "chainId"
     = Some (match tx_params !! "chainId" with
             | Some v => v
             | None => VInt (network_chain_id client)
             end)
  /\ r !! "nonce" = Some (VInt (eth_get_transaction_count client (account_address client)))
  /\ r !! "from" = Some (VStr (account_address client)).
Proof.
  intros H.
  pose proof (auto_add_params_chain_id _ _ _ H) as Hc.
  pose proof (auto_add_params_overwrites _ _ _ H) as (Hn & Hf & g & Hg).
  pose proof (auto_add_params_fee_keys _ _ _ H) as Hfee.
  split; [|split; [exact Hc|split; [exact Hn|exact Hf]]].
  unfold written_keys.
  destruct (network_tx_type client =? 2).
  - destruct Hfee as [Hp Hm]. repeat constructor; eauto.
  - repeat constructor; eauto.
Qed.

Lemma auto_add_params_complete_witness :
  Forall (fun k => is_Some (Samples.full_legacy_params_completed !! k))
    (written_keys Samples.legacy_client).
Proof.
  apply (auto_add_params_complete Samples.legacy_client Samples.full_legacy_params).
  rewrite auto_add_params_legacy by reflexivity. vm_compute. reflexivity.
Defined.

(** X14. On a network that is not of transaction type 2 completion always
    returns; it sets [gasPrice] to the node's gas price and leaves the
    EIP-1559 keys as the caller gave them. *)
Theorem auto_add_params_legacy_returns (client : Client) (tx_params : TxParams) :
  network_tx_type client <> 2 ->
  exists r : TxParams,
    auto_add_params client tx_params = Ret r
    /\ r !! "gasPrice" = Some (VInt (eth_gas_price client))
    /\ r !! "maxFeePerGas" = tx_params !! "maxFeePerGas"
    /\ r !! "maxPriorityFeePerGas" = tx_params !! "maxPriorityFeePerGas".
Proof.
  intros Ht. apply Z.eqb_neq in Ht.
  eexists. split; [apply auto_add_params_legacy; exact Ht|].
  cbv zeta. repeat split; now simplify_map_eq.
Qed.

Lemma auto_add_params_legacy_returns_witness :
  exists r : TxParams,
    auto_add_params Samples.legacy_client Samples.params_with_nonce = Ret r
    /\ r !! "gasPrice" = Some (VInt 5)
    /\ r !! "maxFeePerGas" = Samples.params_with_nonce !! "maxFeePerGas"
    /\ r !! "maxPriorityFeePerGas" = Samples.params_with_nonce !! "maxPriorityFeePerGas".
Proof.
  apply (auto_add_params_legacy_returns Samples.legacy_client Samples.params_with_nonce).
  discriminate.
Defined.

(** X15. Completion is idempotent on its own output when the node's gas
    estimate does not depend on the [gas] entry of the parameters: run on a
    set it returned, it returns that set. *)
Theorem auto_add_params_idempotent (client : Client) (tx_params r : TxParams) :
  (forall (m : TxParams) (g : pyval),
     eth_estimate_gas client (<["gas" := g]> m) = eth_estimate_gas client m) ->
  auto_add_params client tx_params = Ret r ->
  auto_add_params client r = Ret r.
Proof.
  intros Hest H.
  pose proof (auto_add_params_chain_id _ _ _ H) as Hc.
  pose proof (auto_add_params_overwrites _ _ _ H) as (Hn & Hf & _).
  pose proof (auto_add_params_fee_keys _ _ _ H) as Hfee.
  pose proof (auto_add_params_inv _ _ _ H) as Hinv. cbv zeta in Hinv.
  destruct Hinv as (fees & Er & Hfees).
  assert (Hbase :
    <["from" := VStr (account_address client)]>
    (<["nonce" := VInt (Wallet.nonce client None)]>
    (<["chainId" := dict_get r "chainId" (VInt (network_chain_id client))]> r)) = r).
  { unfold dict_get at 1. rewrite Hc.
    rewrite (insert_id r "chainId") by exact Hc.
    rewrite (insert_id r "nonce") by exact Hn.
    apply insert_id. exact Hf. }
  assert (Hgas : <["gas" := VInt (eth_estimate_gas client r)]> r = r).
  { rewrite Er at 1. rewrite Hest. rewrite Er. apply insert_insert_eq. }
  destruct (network_tx_type client =? 2) eqn:Et.
  - destruct Hfee as [Hp _].
    destruct Hfees as (fee & max_fee & Efee & Ew & Ef).
    assert (Hm : r !! "maxFeePerGas" = Some (VInt max_fee)).
    { rewrite Er, Ef. now simplify_map_eq. }
    rewrite (auto_add_params_eip1559 client r max_fee Et)
      by (rewrite Efee; run_bind; exact Ew).
    cbv zeta. rewrite Hbase.
    rewrite (insert_id r "maxPriorityFeePerGas") by exact Hp.
    rewrite (insert_id r "maxFeePerGas") by exact Hm.
    now rewrite Hgas.
  - rewrite (auto_add_params_legacy client r Et). cbv zeta. rewrite Hbase.
    rewrite (insert_id r "gasPrice") by exact Hfee.
    now rewrite Hgas.
Qed.

Lemma auto_add_params_idempotent_witness :
  auto_add_params Samples.legacy_client Samples.full_legacy_params_completed
  = Ret Samples.full_legacy_params_completed.
Proof.
  apply (auto_add_params_idempotent Samples.legacy_client Samples.full_legacy_params).
  - reflexivity.
  - rewrite auto_add_params_legacy by reflexivity. vm_compute. reflexivity.
Defined.



Lemma auto_add_params_nonempty (client : Client) (tx_params r : TxParams) :
  auto_add_params client tx_params = Ret r -> params_falsy (Some r) = false.
Proof.
  intros H. pose proof (auto_add_params_overwrites _ _ _ H) as (Hn & _).
  unfold params_falsy. apply bool_decide_eq_false. intros ->.
  rewrite lookup_empty in Hn. discriminate.
Qed.

Lemma sign_and_send_transaction_eq (client : Client)
    (HexBytes : string -> option (list Byte.byte)) (tx_params : TxParams) :
  sign_and_send_transaction client HexBytes tx_params
  = r ← auto_add_params client tx_params;
    rawTransaction ← eth_account_sign_transaction client r;
    tx_hash ← eth_send_raw_transaction client rawTransaction;
    Ret {| hash := Some tx_hash;
           params := Some r;
           receipt := None;
           function_identifier := None;
           input_data := None |}.
Proof.
  unfold sign_and_send_transaction.
  destruct (auto_add_params client tx_params) as [r| |] eqn:E; try reflexivity.
  run_bind.
  destruct (eth_account_sign_transaction client r) as [raw| |]; try reflexivity.
  run_bind.
  destruct (eth_send_raw_transaction client raw) as [h| |]; try reflexivity.
  run_bind. unfold Tx_init.
  rewrite (auto_add_params_nonempty _ _ _ E), andb_false_r. reflexivity.
Qed.

Lemma of_int_raises (n : Z) (e : exn) :
  PyFloat.of_int n = Raise e -> e = OverflowError.
Proof.
  unfold PyFloat.of_int.
  destruct (binary_normalize PyFloat.prec PyFloat.emax n 0 false);
    intros [= <-] || discriminate. reflexivity.
Qed.

Lemma to_int_raises (d : PyDecimal.t) (e : exn) :
  PyDecimal.to_int d = Raise e -> e = OverflowError \/ e = ValueError.
Proof. destruct d; cbn; intros [= <-]; auto. Qed.

(** Completion can only fail in the float arithmetic of the maximum fee:
    with [OverflowError] or [ValueError]; it never runs out of fuel. *)
Lemma auto_add_params_failures (client : Client) (tx_params : TxParams) :
  match auto_add_params client tx_params with
  | Ret _ => True
  | Raise e => e = OverflowError \/ e = ValueError
  | OutOfFuel => False
  end.
Proof.
  unfold auto_add_params.
  destruct (network_tx_type client =? 2).
  - unfold get_max_priority_fee at 1. rewrite Wei_of_wei_int. run_bind.
    unfold get_max_fee_per_gas, get_base_gas_fee, get_max_priority_fee.
    rewrite !Wei_of_wei_int. run_bind.
    destruct (PyFloat.of_int (eth_base_fee_per_gas client)) as [fb|e|] eqn:Eb; run_bind.
    + destruct (PyFloat.of_int (eth_max_priority_fee client * 2)) as [fp|e|] eqn:Ep;
        run_bind.
      * change (Wei (TokenAmount_init (NFloat (PyFloat.add fp (PyFloat.mul fb PyFloat.lit_1_05))) 18 true))
          with (PyDecimal.to_int (PyDecimal.of_float
                  (PyFloat.add fp (PyFloat.mul fb PyFloat.lit_1_05)))).
        destruct (PyDecimal.to_int _) as [w|e|] eqn:Ew; run_bind.
        -- unfold get_estimated_gas. rewrite Wei_of_wei_int. exact I.
        -- apply to_int_raises in Ew. exact Ew.
        -- destruct (PyDecimal.of_float _); discriminate Ew.
      * left. apply (of_int_raises _ _ Ep).
      * unfold PyFloat.of_int in Ep.
        destruct (binary_normalize _ _ _ _ _); discriminate Ep.
    + left. apply (of_int_raises _ _ Eb).
    + unfold PyFloat.of_int in Eb.
      destruct (binary_normalize _ _ _ _ _); discriminate Eb.
  - unfold get_gas_price, get_estimated_gas. rewrite Wei_of_wei_int. run_bind.
    rewrite Wei_of_wei_int. exact I.
Qed.

(** X18. [sign_and_send_transaction] is completion, signing and sending, in
    this order, and fails exactly as the first of them that fails.  The
    constructor of [Tx] never fails on what it is given: the completed
    parameters are not empty, so its [TransactionException] cannot fire
    even for an empty hash, and [HexBytes] is not consulted. *)
Theorem sign_and_send_transaction_spec (client : Client)
    (HexBytes : string -> option (list Byte.byte)) (tx_params : TxParams) :
  sign_and_send_transaction client HexBytes tx_params
  = (r ← auto_add_params client tx_params;
     rawTransaction ← eth_account_sign_transaction client r;
     tx_hash ← eth_send_raw_transaction client rawTransaction;
     Ret {| hash := Some tx_hash;
            params := Some r;
            receipt := None;
            function_identifier := None;
            input_data := None |})
  /\ (forall (r : TxParams) (tx_hash : list Byte.byte),
        auto_add_params client tx_params = Ret r ->
        Tx_init HexBytes (Some (HashBytes tx_hash)) (Some r)
        = Ret {| hash := Some tx_hash;
                 params := Some r;
                 receipt := None;
                 function_identifier := None;
                 input_data := None |})
  /\ (sign_and_send_transaction client HexBytes tx_params = Raise TransactionException ->
      exists r : TxParams,
        auto_add_params client tx_params = Ret r
        /\ (eth_account_sign_transaction client r = Raise TransactionException
            \/ exists rawTransaction,
                 eth_account_sign_transaction client r = Ret rawTransaction
                 /\ eth_send_raw_transaction client rawTransaction
                    = Raise TransactionException)).
Proof.
  split; [apply sign_and_send_transaction_eq|]. split.
  - intros r h E. unfold Tx_init.
    rewrite (auto_add_params_nonempty _ _ _ E), andb_false_r. reflexivity.
  - rewrite sign_and_send_transaction_eq.
    pose proof (auto_add_params_failures client tx_params) as Hf.
    destruct (auto_add_params client tx_params) as [r|e|]; run_bind; try discriminate.
    + intros H. exists r. split; [reflexivity|].
      destruct (eth_account_sign_transaction client r) as [raw|e|]; run_bind in H;
        try discriminate.
      * right. exists raw. split; [reflexivity|].
        destruct (eth_send_raw_transaction client raw) as [h|e|]; run_bind in H;
          try discriminate. injection H as ->. reflexivity.
      * left. injection H as ->. reflexivity.
    + intros [= ->]. destruct Hf; discriminate.
Qed.

Lemma sign_and_send_transaction_spec_witness :
  Tx_init Samples.sample_HexBytes (Some (HashBytes []))
    (Some Samples.full_legacy_params_completed)
  = Ret {| hash := Some [];
           params := Some Samples.full_legacy_params_completed;
           receipt := None;
           function_identifier := None;
           input_data := None |}.
Proof.
  apply (proj1 (proj2 (sign_and_send_transaction_spec Samples.legacy_client
                         Samples.sample_HexBytes Samples.full_legacy_params))).
  vm_compute. reflexivity.
Defined.

(** X17. With a node that answers every query, completion can fail only in the
    float arithmetic of the maximum fee, with [OverflowError] or
    [ValueError]: [GasValueObtaining] and [TransactionException] are never
    raised, and a legacy network never fails. *)
Theorem auto_add_params_only_float_errors (client : Client) (tx_params : TxParams)
    (e : exn) :
  auto_add_params client tx_params = Raise e ->
  network_tx_type client = 2 /\ (e = OverflowError \/ e = ValueError).
Proof.
  intros H. pose proof (auto_add_params_failures client tx_params) as Hf.
  rewrite H in Hf. split; [|exact Hf].
  destruct (Z.eq_dec (network_tx_type client) 2) as [|Hne]; [assumption|].
  apply Z.eqb_neq in Hne. rewrite auto_add_params_legacy in H by exact Hne.
  discriminate H.
Qed.

Lemma build_tx_approve_params_fields (client : Client) (token_contract : ContractInstance)
    (spender_address : string) (amount : Z) (gas_limit : option GasLimit)
    (tx_params : TxParams) :
  _build_tx_approve_params client token_contract spender_address amount gas_limit
  = Ret tx_params ->
  tx_params !! "to" = Some (VStr (address token_contract))
  /\ tx_params !! "data"
     = Some (VStr (encodeABI token_contract "approve" [VStr spender_address; VInt amount])).
Proof.
  unfold _build_tx_approve_params. intros H.
  destruct gas_limit as [g|].
  - destruct (gas_limit_falsy (Some g)).
    + injection H as <-. split; now simplify_map_eq.
    + destruct (Wei _) as [w| |]; try discriminate H. run_bind in H.
      injection H as <-. split; now simplify_map_eq.
  - injection H as <-. split; now simplify_map_eq.
Qed.

(** X19. What [approve_token_spending] sends: a transaction to the token
    contract whose data is the encoded call [approve(spender, amount)] for
    the amount [_determine_approve_amount] returns, from the account, with
    the account's nonce; and its gas is the node's estimate, whatever
    [gas_limit] was passed. *)
Theorem approve_token_spending_sends (client : Client)
    (HexBytes : string -> option (list Byte.byte)) (token_contract : ContractInstance)
    (spender_address : string) (amount : option Amount) (gas_limit : option GasLimit)
    (tx : Tx) :
  approve_token_spending client HexBytes token_contract spender_address amount gas_limit
  = Ret tx ->
  exists (a : Z) (r fees : TxParams) (rawTransaction tx_hash : list Byte.byte),
    _determine_approve_amount client amount (ByAddress (address token_contract)) = Ret a
    /\ params tx = Some r
    /\ eth_account_sign_transaction client r = Ret rawTransaction
    /\ eth_send_raw_transaction client rawTransaction = Ret tx_hash
    /\ hash tx = Some tx_hash
    /\ r !! "to" = Some (VStr (address token_contract))
    /\ r !! "data"
       = Some (VStr (encodeABI token_contract "approve" [VStr spender_address; VInt a]))
    /\ r !! "from" = Some (VStr (account_address client))
    /\ r !! "nonce" = Some (VInt (eth_get_transaction_count client (account_address client)))
    /\ r = <["gas" := VInt (eth_estimate_gas client fees)]> fees.
Proof.
  unfold approve_token_spending. intros H.
  destruct (_determine_approve_amount client amount _) as [a| |]; try discriminate H.
  run_bind in H.
  destruct (_build_tx_approve_params client token_contract spender_address a gas_limit)
    as [p| |] eqn:Eb; try discriminate H.
  run_bind in H. rewrite sign_and_send_transaction_eq in H.
  destruct (auto_add_params client p) as [r| |] eqn:Ea; try discriminate H.
  run_bind in H.
  destruct (eth_account_sign_transaction client r) as [raw| |] eqn:Es;
    try discriminate H.
  run_bind in H.
  destruct (eth_send_raw_transaction client raw) as [h| |] eqn:Eh; try discriminate H.
  run_bind in H. injection H as <-.
  destruct (build_tx_approve_params_fields _ _ _ _ _ _ Eb) as [Hto Hdata].
  pose proof (auto_add_params_overwrites _ _ _ Ea) as (Hn & Hf & _).
  pose proof (auto_add_params_inv _ _ _ Ea) as Hinv. cbv zeta in Hinv.
  destruct Hinv as (fees & Er & Hfees).
  exists a, r, fees, raw, h. cbn [params hash].
  repeat split; try assumption; try reflexivity.
  - rewrite Er. destruct (network_tx_type client =? 2).
    + destruct Hfees as (fee & mf & _ & _ & ->). now simplify_map_eq.
    + subst fees. now simplify_map_eq.
  - rewrite Er. destruct (network_tx_type client =? 2).
    + destruct Hfees as (fee & mf & _ & _ & ->). now simplify_map_eq.
    + subst fees. now simplify_map_eq.
Qed.





(** X20. An [int] (non-zero) approval amount is in token units: it is scaled by
    the [decimals] the token contract reports, exactly when the product
    has at most 28 digits.  When [get_decimals] raises, as it does with
    [ValueError] for a text that is not an address, the amount is not
    determined and the exception is passed on. *)
Theorem determine_approve_amount_int (client : Client) (n : Z)
    (token_contract : ContractRef) :
  n <> 0 ->
  (forall d : Z,
     get_decimals client token_contract = Ret d ->
     0 <= d -> Z.abs n * 10 ^ d < 10 ^ 28 ->
     _determine_approve_amount client (Some (AmountInt n)) token_contract
     = Ret (n * 10 ^ d))
  /\ (forall e : exn,
        get_decimals client token_contract = Raise e ->
        _determine_approve_amount client (Some (AmountInt n)) token_contract = Raise e)
  /\ (forall a : string,
        token_contract = ByAddress a -> to_checksum_address client a = None ->
        _determine_approve_amount client (Some (AmountInt n)) token_contract
        = Raise ValueError).
Proof.
  intros Hn. unfold _determine_approve_amount. cbn [amount_falsy].
  destruct (Z.eqb_spec n 0); [contradiction|].
  split; [|split].
  - intros d -> Hd Hfit. run_bind. apply Wei_int_exact; assumption.
  - intros e ->. reflexivity.
  - intros a -> Ha. unfold get_decimals, get_contract_attributes, get_checksum_address.
    rewrite Ha. reflexivity.
Qed.

Lemma determine_approve_amount_int_witness :
  _determine_approve_amount Samples.legacy_client (Some (AmountInt 5))
    (ByAddress "0xdac17f958d2ee523a2206206994597c13d831ec7")
  = Ret (5 * 10 ^ 18).
Proof.
  destruct (determine_approve_amount_int Samples.legacy_client 5
              (ByAddress "0xdac17f958d2ee523a2206206994597c13d831ec7")) as [H _];
    [discriminate|].
  apply (H 18); [reflexivity | discriminate | reflexivity].
Defined.

Lemma auto_add_params_only_float_errors_witness :
  network_tx_type MoreSamples.overflow_client = 2
  /\ (OverflowError = OverflowError \/ OverflowError = ValueError).
Proof.
  apply (auto_add_params_only_float_errors MoreSamples.overflow_client ∅ OverflowError).
  vm_compute. reflexivity.
Defined.

Lemma approve_token_spending_sends_witness :
  exists (a : Z) (r fees : TxParams) (rawTransaction tx_hash : list Byte.byte),
    _determine_approve_amount Samples.legacy_client None
      (ByAddress (address MoreSamples.token)) = Ret a
    /\ params MoreSamples.approve_tx = Some r
    /\ eth_account_sign_transaction Samples.legacy_client r = Ret rawTransaction
    /\ eth_send_raw_transaction Samples.legacy_client rawTransaction = Ret tx_hash
    /\ hash MoreSamples.approve_tx = Some tx_hash
    /\ r !! "to" = Some (VStr (address MoreSamples.token))
    /\ r !! "data"
       = Some (VStr (encodeABI MoreSamples.token "approve" [VStr "0xB0b"; VInt a]))
    /\ r !! "from" = Some (VStr (account_address Samples.legacy_client))
    /\ r !! "nonce"
       = Some (VInt (eth_get_transaction_count Samples.legacy_client
                       (account_address Samples.legacy_client)))
    /\ r = <["gas" := VInt (eth_estimate_gas Samples.legacy_client fees)]> fees.
Proof.
  apply (approve_token_spending_sends Samples.legacy_client Samples.sample_HexBytes
           MoreSamples.token "0xB0b" None (Some (GasInt 50000))).
  vm_compute. reflexivity.
Defined.

(** ** wallet.py: balances *)

Import WalletBalance.


(** ** contracts.py: the signature database *)

Import SignatureDb.

Lemma insert_by_key_perm (x : string * json_object) (l : list (string * json_object)) :
  Permutation (insert_by_key x l) (x :: l).
Proof.
  induction l as [|y r IH]; cbn; [reflexivity|].
  destruct (String.leb (fst x) (fst y)); [reflexivity|].
  rewrite IH. apply perm_swap.
Qed.

Lemma sorted_by_key_perm (l : list (string * json_object)) :
  Permutation (sorted_by_key l) l.
Proof.
  induction l as [|x l IH]; cbn; [reflexivity|].
  rewrite insert_by_key_perm. now constructor.
Qed.

Lemma insert_by_key_sorted (x : string * json_object) (l : list (string * json_object)) :
  Sorted (fun a b => String.leb (fst a) (fst b) = true) l ->
  Sorted (fun a b => String.leb (fst a) (fst b) = true) (insert_by_key x l).
Proof.
  induction l as [|y r IH]; intros Hs; cbn.
  - repeat constructor.
  - destruct (String.leb (fst x) (fst y)) eqn:E.
    + constructor; [assumption|]. constructor. exact E.
    + inversion Hs as [|? ? Hr Hhd]; subst.
      constructor; [apply IH; assumption|].
      destruct r as [|z r]; cbn.
      * constructor. destruct (String.leb_total (fst x) (fst y)); congruence.
      * destruct (String.leb (fst x) (fst z)).
        -- constructor. destruct (String.leb_total (fst x) (fst y)); congruence.
        -- inversion Hhd; subst. constructor. assumption.
Qed.

Lemma sorted_by_key_sorted (l : list (string * json_object)) :
  Sorted (fun a b => String.leb (fst a) (fst b) = true) (sorted_by_key l).
Proof.
  induction l as [|x l IH]; cbn; [constructor|]. now apply insert_by_key_sorted.
Qed.

(** Entries with the same key stay in the order in which they came. *)
Lemma insert_by_key_stable (k : string) (x : string * json_object)
    (l : list (string * json_object)) :
  filter (fun a => fst a = k) (insert_by_key x l)
  = filter (fun a => fst a = k) (x :: l).
Proof.
  induction l as [|y r IH]; cbn [insert_by_key]; [reflexivity|].
  destruct (String.leb (fst x) (fst y)) eqn:E; [reflexivity|].
  rewrite filter_cons, IH, !filter_cons.
  destruct (decide (fst y = k)) as [Hy|Hy]; destruct (decide (fst x = k)) as [Hx|Hx];
    try reflexivity.
  exfalso. rewrite Hx, Hy in E.
  destruct (String.leb_total k k); congruence.
Qed.

Lemma sorted_by_key_stable (k : string) (l : list (string * json_object)) :
  filter (fun a => fst a = k) (sorted_by_key l) = filter (fun a => fst a = k) l.
Proof.
  induction l as [|x l IH]; cbn [sorted_by_key foldr]; [reflexivity|].
  fold (sorted_by_key l). rewrite insert_by_key_stable, !filter_cons, IH. reflexivity.
Qed.

Lemma keyed_results (results : list json_object) (keyed : list (string * json_object)) :
  mapM (fun result : json_object => k ← result !! "created_at"; Some (k, result)) results
  = Some keyed ->
  map snd keyed = results
  /\ Forall (fun kr => snd kr !! "created_at" = Some (fst kr)) keyed.
Proof.
  intros H. apply mapM_Some_1 in H.
  induction H as [|r kr results keyed Hr _ [IH1 IH2]]; [split; constructor|].
  destruct (r !! "created_at") as [k|] eqn:Ek; [|discriminate].
  cbn in Hr. injection Hr as <-. cbn. split; [now rewrite IH1|].
  constructor; [exact Ek|exact IH2].
Qed.

(** X22. What [get_signature] returns: the text signatures of the database
    entries, each entry once, in ascending order of [created_at], entries
    of the same date in the order of the reply. *)
Theorem get_signature_sorted
    (async_get_results : string -> option (list json_object))
    (hex_signature : string) (signatures : list string) :
  get_signature async_get_results hex_signature = Some signatures ->
  exists (results : list json_object) (keyed : list (string * json_object)),
    async_get_results
      (String.append "https://www.4byte.directory/api/v1/signatures/?hex_signature="
         hex_signature) = Some results
    /\ Permutation (map snd keyed) results
    /\ Forall (fun kr => snd kr !! "created_at" = Some (fst kr)) keyed
    /\ Sorted (fun a b => String.leb (fst a) (fst b) = true) keyed
    /\ (forall k, map snd (filter (fun a => fst a = k) keyed)
                  = filter (fun r => r !! "created_at" = Some k) results)
    /\ Forall2 (fun kr t => snd kr !! "text_signature" = Some t) keyed signatures.
Proof.
  unfold get_signature. intros H.
  destruct (async_get_results _) as [results|] eqn:Er; [|discriminate]. cbn in H.
  destruct (mapM _ results) as [keyed|] eqn:Ek; [|discriminate]. cbn in H.
  destruct (keyed_results _ _ Ek) as [Hsnd Hkeys].
  exists results, (sorted_by_key keyed).
  split; [reflexivity|].
  split; [rewrite sorted_by_key_perm, Hsnd; reflexivity|].
  split; [rewrite sorted_by_key_perm; exact Hkeys|].
  split; [apply sorted_by_key_sorted|].
  split; [|apply mapM_Some_1; exact H].
  intros k. rewrite sorted_by_key_stable, <- Hsnd.
  clear -Hkeys. induction Hkeys as [|kr keyed Hk _ IH]; [reflexivity|].
  cbn [map]. rewrite !filter_cons, <- IH. rewrite Hk.
  destruct (decide (fst kr = k)) as [E|N].
  - rewrite decide_True by congruence. reflexivity.
  - rewrite decide_False by congruence. reflexivity.
Qed.

Lemma get_signature_sorted_witness :
  exists (results : list json_object) (keyed : list (string * json_object)),
    MoreSamples.database
      (String.append "https://www.4byte.directory/api/v1/signatures/?hex_signature="
         "0x095ea7b3") = Some results
    /\ Permutation (map snd keyed) results
    /\ Forall (fun kr => snd kr !! "created_at" = Some (fst kr)) keyed
    /\ Sorted (fun a b => String.leb (fst a) (fst b) = true) keyed
    /\ (forall k, map snd (filter (fun a => fst a = k) keyed)
                  = filter (fun r => r !! "created_at" = Some k) results)
    /\ Forall2 (fun kr t => snd kr !! "text_signature" = Some t) keyed
         ["a(address)"; "b(uint256)"].
Proof.
  apply (get_signature_sorted MoreSamples.database "0x095ea7b3").
  vm_compute. reflexivity.
Defined.

(** X23. [get_signature] returns [None] exactly when the request fails or some
    entry of the reply lacks [created_at] or [text_signature]. *)
Theorem get_signature_none
    (async_get_results : string -> option (list json_object))
    (hex_signature : string) :
  get_signature async_get_results hex_signature = None
  <-> match async_get_results
              (String.append
                 "https://www.4byte.directory/api/v1/signatures/?hex_signature="
                 hex_signature) with
      | None => True
      | Some results =>
          Exists (fun r => r !! "created_at" = None \/ r !! "text_signature" = None)
            results
      end.
Proof.
  unfold get_signature.
  destruct (async_get_results _) as [results|]; [|cbn; tauto]. cbn.
  destruct (mapM _ results) as [keyed|] eqn:Ek; cbn.
  - destruct (keyed_results _ _ Ek) as [Hsnd Hkeys].
    rewrite mapM_None. split.
    + intros Hex. apply Exists_exists in Hex as (kr & Hin & Hnone).
      apply Exists_exists. exists (snd kr). split; [|right; exact Hnone].
      rewrite <- Hsnd. apply list_elem_of_fmap. exists kr. split; [reflexivity|].
      rewrite <- (sorted_by_key_perm keyed). exact Hin.
    + intros Hex. apply Exists_exists in Hex as (r & Hin & Hnone).
      rewrite <- Hsnd in Hin. apply list_elem_of_fmap in Hin as (kr & -> & Hin).
      apply Exists_exists. exists kr. split; [rewrite sorted_by_key_perm; exact Hin|].
      destruct Hnone as [Hc|Ht]; [|exact Ht].
      rewrite Forall_forall in Hkeys. rewrite (Hkeys kr Hin) in Hc. discriminate.
  - split; [intros _|reflexivity].
    apply mapM_None_1 in Ek. apply Exists_exists in Ek as (r & Hin & Hnone).
    apply Exists_exists. exists r. split; [exact Hin|left].
    destruct (r !! "created_at"); [discriminate|reflexivity].
Qed.

(** ** client.py: the proxy setting *)

Import ClientProxy.

Lemma append_cons (c : ascii) (a b : string) :
  String.append (String c a) b = String c (String.append a b).
Proof. reflexivity. Qed.

Lemma append_empty (b : string) : String.append "" b = b.
Proof. reflexivity. Qed.

Lemma prefix_append (sub s : string) :
  String.prefix sub s = true <-> exists b, s = String.append sub b.
Proof.
  revert s. induction sub as [|c sub IH]; intros s; cbn [String.prefix].
  - split; [intros _; exists s; reflexivity|intros _; now destruct s].
  - destruct s as [|d s]; [split; [discriminate|intros [b Hb]; discriminate]|].
    change (String.prefix (String c sub) (String d s))
      with (if Ascii.ascii_dec c d then String.prefix sub s else false).
    destruct (Ascii.ascii_dec c d) as [->|N].
    + rewrite IH. split; intros [b Hb]; exists b; rewrite append_cons in *; congruence.
    + split; [discriminate|intros [b Hb]; rewrite append_cons in Hb; congruence].
Qed.

(** [sub in s] holds exactly when [s] reads [a ++ sub ++ b]. *)
Lemma str_in_spec (sub s : string) :
  str_in sub s = true
  <-> exists a b, s = String.append a (String.append sub b).
Proof.
  induction s as [|d s IH]; cbn [str_in].
  - destruct (String.prefix sub "") eqn:E.
    + split; [intros _|reflexivity]. apply prefix_append in E as [b Hb].
      exists "", b. exact Hb.
    + split; [discriminate|]. intros ([|? a] & b & H); [|discriminate].
      rewrite append_empty in H.
      assert (String.prefix sub "" = true) by (apply prefix_append; eauto).
      congruence.
  - destruct (String.prefix sub (String d s)) eqn:E.
    + split; [intros _|reflexivity]. apply prefix_append in E as [b Hb].
      exists "", b. exact Hb.
    + rewrite IH. split.
      * intros (a & b & ->). exists (String d a), b. reflexivity.
      * intros ([|c a] & b & H).
        -- rewrite append_empty in H.
           assert (String.prefix sub (String d s) = true)
             by (apply prefix_append; eauto). congruence.
        -- rewrite append_cons in H. injection H as -> ->. eauto.
Qed.

Lemma str_in_prefix (sub rest : string) : str_in sub (String.append sub rest) = true.
Proof. apply str_in_spec. exists "", rest. reflexivity. Qed.

Lemma str_in_empty (s : string) : str_in "" s = true.
Proof. destruct s; reflexivity. Qed.

Lemma rstrip_blank (text : string) :
  Forall (fun c => isspace c = true) (list_ascii_of_string text) -> rstrip text = "".
Proof.
  induction text as [|c r IH]; cbn [list_ascii_of_string rstrip]; [reflexivity|].
  intros H. inversion H as [|? ? Hc Hr]; subst. rewrite (IH Hr), Hc. reflexivity.
Qed.

(** X24. The proxy the client keeps, when there is one, always contains
    ["http"]: an address without it gets the prefix ["http://"], any other
    is kept as given. *)
Theorem configure_proxy_scheme (eth0_me : string -> option string)
    (proxy : option string) (check_proxy : bool) (p : string) :
  _configure_proxy eth0_me proxy check_proxy = Proxy (Some p) ->
  p <> "" ->
  str_in "http" p = true
  /\ (proxy = Some p \/ exists q, proxy = Some q /\ str_in "http" q = false
                                  /\ p = String.append "http://" q).
Proof.
  unfold _configure_proxy. intros H Hp.
  destruct proxy as [q|]; [|discriminate].
  destruct (String.eqb_spec q "") as [->|Hq]; cbn [negb andb] in H.
  - cbn in H. injection H as <-. contradiction.
  - destruct (str_in "http" q) eqn:Eh; cbn [negb] in H.
    + assert (p = q) as ->; [|split; [exact Eh|left; reflexivity]].
      destruct (negb (q =? "")%string && check_proxy); [|congruence].
      destruct (eth0_me q); [|discriminate].
      destruct (negb (str_in (rstrip s) q)); congruence.
    + assert (p = String.append "http://" q) as ->.
      { destruct (negb (String.append "http://" q =? "")%string && check_proxy);
          [|congruence].
        destruct (eth0_me _); [|discriminate].
        destruct (negb (str_in (rstrip s) _)); congruence. }
      split; [apply (str_in_prefix "http" (String.append "://" q))|].
      right. exists q. auto.
Qed.

Lemma configure_proxy_scheme_witness :
  str_in "http" "http://10.0.0.7:8080" = true
  /\ (Some "10.0.0.7:8080" = Some "http://10.0.0.7:8080"
      \/ exists q, Some "10.0.0.7:8080" = Some q /\ str_in "http" q = false
                   /\ "http://10.0.0.7:8080" = String.append "http://" q).
Proof.
  apply (configure_proxy_scheme MoreSamples.echo (Some "10.0.0.7:8080") true).
  - vm_compute. reflexivity.
  - discriminate.
Defined.

(** X25. The health check compares by containment: with the check on, a proxy
    is accepted exactly when the echo service answers and its answer,
    without trailing white space, occurs somewhere in the proxy address
    (with its prefix). *)
Theorem configure_proxy_check (eth0_me : string -> option string)
    (proxy : string) (kept : option string) :
  proxy <> "" ->
  let url := if str_in "http" proxy then proxy else String.append "http://" proxy in
  _configure_proxy eth0_me (Some proxy) true = Proxy kept
  <-> kept = Some url
      /\ exists text a b,
           eth0_me url = Some text
           /\ url = String.append a (String.append (rstrip text) b).
Proof.
  intros Hp url. unfold _configure_proxy.
  destruct (String.eqb_spec proxy "") as [|_]; [contradiction|]. cbn [negb andb].
  assert (Hu : (url =? "")%string = false).
  { subst url. destruct (str_in "http" proxy); [now apply String.eqb_neq|reflexivity]. }
  replace (if negb (str_in "http" proxy)
           then Some (String.append "http://" proxy) else Some proxy)
    with (Some url) by (subst url; now destruct (str_in "http" proxy)).
  rewrite Hu. cbn [negb andb].
  destruct (eth0_me url) as [text|].
  - destruct (str_in (rstrip text) url) eqn:E; cbn [negb].
    + apply str_in_spec in E as (a & b & E). split.
      * intros [= <-]. split; [reflexivity|]. exists text, a, b. auto.
      * intros [-> _]. reflexivity.
    + split; [discriminate|]. intros [_ (text' & a & b & [= <-] & E')].
      assert (str_in (rstrip text) url = true) by (apply str_in_spec; eauto).
      congruence.
  - split; [discriminate|]. intros [_ (text & a & b & Ht & _)]. discriminate.
Qed.

(** X26. A reply of white space only passes the health check of every proxy. *)
Theorem configure_proxy_blank_reply (eth0_me : string -> option string)
    (proxy text : string) :
  proxy <> "" ->
  let url := if str_in "http" proxy then proxy else String.append "http://" proxy in
  eth0_me url = Some text ->
  Forall (fun c => isspace c = true) (list_ascii_of_string text) ->
  _configure_proxy eth0_me (Some proxy) true = Proxy (Some url).
Proof.
  intros Hp url Ht Hblank. unfold _configure_proxy.
  destruct (String.eqb_spec proxy "") as [|_]; [contradiction|]. cbn [negb andb].
  assert (Hu : (url =? "")%string = false).
  { subst url. destruct (str_in "http" proxy); [now apply String.eqb_neq|reflexivity]. }
  replace (if negb (str_in "http" proxy)
           then Some (String.append "http://" proxy) else Some proxy)
    with (Some url) by (subst url; now destruct (str_in "http" proxy)).
  rewrite Hu. cbn [negb andb]. rewrite Ht, (rstrip_blank text Hblank), str_in_empty.
  reflexivity.
Qed.

Lemma configure_proxy_blank_reply_witness :
  _configure_proxy MoreSamples.blank_echo (Some "10.0.0.7:8080") true
  = Proxy (Some "http://10.0.0.7:8080").
Proof.
  apply (configure_proxy_blank_reply MoreSamples.blank_echo "10.0.0.7:8080"
           (String (ascii_of_nat 10) "")).
  - discriminate.
  - reflexivity.
  - repeat constructor.
Defined.

(** X27. Configuring an accepted proxy again accepts it unchanged. *)
Theorem configure_proxy_idempotent (eth0_me : string -> option string)
    (proxy kept : option string) (check_proxy : bool) :
  _configure_proxy eth0_me proxy check_proxy = Proxy kept ->
  _configure_proxy eth0_me kept check_proxy = Proxy kept.
Proof.
  unfold _configure_proxy. intros H.
  destruct proxy as [q|]; [|injection H as <-; reflexivity].
  set (url := if negb (q =? "")%string && negb (str_in "http" q)
              then String.append "http://" q else q).
  assert (Hhttp : negb (url =? "")%string && negb (str_in "http" url) = false).
  { subst url. destruct (String.eqb_spec q "") as [->|Hq]; [reflexivity|].
    cbn [negb andb]. destruct (str_in "http" q) eqn:E; cbn [negb].
    - rewrite E. apply andb_false_r.
    - change (String.append "http://" q)
        with (String.append "http" (String.append "://" q)).
      rewrite str_in_prefix. apply andb_false_r. }
  replace (if negb (q =? "")%string && negb (str_in "http" q)
           then Some (String.append "http://" q) else Some q)
    with (Some url) in H
    by (subst url; now destruct (negb (q =? "")%string && negb (str_in "http" q))).
  assert (kept = Some url) as ->.
  { destruct (negb (url =? "")%string && check_proxy); [|congruence].
    destruct (eth0_me url); [|discriminate].
    destruct (negb (str_in (rstrip s) url)); congruence. }
  rewrite Hhttp. exact H.
Qed.

Lemma configure_proxy_idempotent_witness :
  _configure_proxy MoreSamples.echo (Some "http://10.0.0.7:8080") true
  = Proxy (Some "http://10.0.0.7:8080").
Proof.
  apply (configure_proxy_idempotent MoreSamples.echo (Some "10.0.0.7:8080")).
  vm_compute. reflexivity.
Defined.

Lemma configure_proxy_check_witness :
  _configure_proxy MoreSamples.echo (Some "10.0.0.7:8080") true
  = Proxy (Some "http://10.0.0.7:8080")
  <-> Some "http://10.0.0.7:8080" = Some "http://10.0.0.7:8080"
      /\ exists text a b,
           MoreSamples.echo "http://10.0.0.7:8080" = Some text
           /\ "http://10.0.0.7:8080" = String.append a (String.append (rstrip text) b).
Proof.
  apply (configure_proxy_check MoreSamples.echo "10.0.0.7:8080"
           (Some "http://10.0.0.7:8080")).
  discriminate.
Defined.
